(** * Preferences actions of the workbench

    A shallow embedding of
    [src/vs/workbench/parts/preferences/browser/preferencesActions.ts]:
    the six [Action] subclasses that open settings and keybindings editors.

    The classes are thin callers of injected services (preferences, workspace
    context, command dispatch, mode registry, quick open).  The services are
    interfaces here: records whose fields are the answers a service gives, so
    every statement below is quantified over all services.  What the actions
    do to their collaborators is observed through a trace of calls. *)

From Stdlib Require Import List String Ascii Bool Arith NArith Lia.
From Stdlib Require Import Permutation Sorted.
Import ListNotations.

Set Implicit Arguments.

(* ===================================================================== *)
(** ** JavaScript strings *)
(* ===================================================================== *)

(** A JavaScript string is a sequence of UTF-16 code units (numbers below
    65536; a character outside the basic plane takes two).  The display
    names of languages, which the file orders and lower-cases, are kept as
    such sequences.  Text the file only hands on or concatenates
    (identifiers, labels of actions, paths, descriptions) stays a Rocq
    string. *)
Definition code_unit : Type := N.
Definition JSString : Type := list code_unit.

(** The JavaScript string of a literal made of ASCII characters, where a
    character is one code unit.  Other strings are written as the list of
    their code units. *)
Definition js (s : string) : JSString :=
  map N_of_ascii (list_ascii_of_string s).

(** Comparison of strings as [<] and the default comparator of
    [Array.prototype.sort()] have it: code unit by code unit, a proper
    prefix before the longer string. *)
Fixpoint JSString_compare (a b : JSString) : comparison :=
  match a, b with
  | [], [] => Eq
  | [], _ :: _ => Lt
  | _ :: _, [] => Gt
  | x :: a', y :: b' =>
      match (x ?= y)%N with
      | Eq => JSString_compare a' b'
      | Lt => Lt
      | Gt => Gt
      end
  end.

Definition JSString_leb (a b : JSString) : bool :=
  match JSString_compare a b with Gt => false | _ => true end.

Definition JSString_eqb (a b : JSString) : bool :=
  match JSString_compare a b with Eq => true | _ => false end.

(** [Array.prototype.sort()] without a comparator, on an array of strings:
    ascending in the order above.  The language leaves the algorithm to the
    engine; insertion is taken here, and [sort_unique] below shows that no
    other algorithm could be told apart by its result. *)
Fixpoint insert (x : JSString) (l : list JSString) : list JSString :=
  match l with
  | [] => [x]
  | y :: rest => if JSString_leb x y then x :: l else y :: insert x rest
  end.

Definition sort (l : list JSString) : list JSString :=
  fold_right insert [] l.

(** [String.prototype.toLowerCase] maps a string to its lower-case form by
    the Unicode case mapping of the host.  That mapping is a table of the
    platform, not of the sources, so the operation is an interface of the
    host: every statement about the language configurator holds for
    whatever function the host provides. *)
Class StringPrototype : Type := Build_StringPrototype {
  toLowerCase : JSString -> JSString
}.

(* ===================================================================== *)
(** ** Values shared by the services *)
(* ===================================================================== *)

(** The payload of a [TPromise<any>]: the file only ever produces
    [undefined] and [null] itself; anything else comes from a service. *)
Inductive any : Type :=
| undefined
| null
| object (ref : nat).

(** [URI] (vs/base/common/uri): the file builds resources with [URI.file]
    only and hands folder resources through untouched. *)
Inductive URI : Type :=
| URI_file (path : string)
| URI_other (scheme path : string).

(** The entries handed to the quick open service: the object literal of
    lines 176-180, [resource] being absent when [fakeResource] was never
    assigned. *)
Record IFilePickOpenEntry : Type := {
  label : JSString;
  resource : option URI;
  description : string
}.

Inductive WorkbenchState : Type := EMPTY | FOLDER | WORKSPACE.

Record IWorkspaceFolder : Type := {
  uri : URI;
  name : string;
  index : nat
}.

Record IWorkspace : Type := {
  folders : list IWorkspaceFolder
}.

Record LanguageIdentifier : Type := {
  language : string
}.

Record IMode : Type := {
  getLanguageIdentifier : LanguageIdentifier
}.

(** Identifiers of commands; the file names exactly one. *)
Inductive CommandId : Type :=
| PICK_WORKSPACE_FOLDER_COMMAND.

(* ===================================================================== *)
(** ** Promises and the trace of service calls *)
(* ===================================================================== *)

(** Every asynchronous call the file makes on a collaborator. *)
Inductive Call : Type :=
| CallOpenGlobalSettings
| CallOpenGlobalKeybindingSettings (textual : bool)
| CallOpenWorkspaceSettings
| CallOpenFolderSettings (folder : URI)
| CallConfigureSettingsForLanguage (lang : string)
| CallExecuteCommand (command : CommandId)
| CallPick (picks : list IFilePickOpenEntry) (placeHolder : string)
| CallGetOrCreateModeByLanguageName (languageName : JSString).

Definition Trace : Type := list Call.

(** Modelled from the spec: [TPromise] (vs/base/common/winjs.base) is not
    among the sources.  An operation "returns a future-like completion", and
    failures of a collaborator are "propagated unmodified": a promise either
    resolves with a value or is rejected with an error. *)
Inductive Outcome (A : Type) : Type :=
| Resolved (value : A)
| Rejected (error : any).

Arguments Rejected {A} error.

(** A [TPromise<A>] is run against the trace of the calls made so far. *)
Definition TPromise (A : Type) : Type := Trace -> Outcome A * Trace.

(** [TPromise.as(v)]; also what a [then] callback returning a plain value
    amounts to. *)
Definition TPromise_as {A : Type} (v : A) : TPromise A :=
  fun t => (Resolved v, t).

(** [p.then(f)] with a success callback only, the one form the file uses:
    a rejection of [p] skips [f] and is passed on. *)
Definition then_ {A B : Type} (p : TPromise A) (f : A -> TPromise B)
  : TPromise B :=
  fun t =>
    match p t with
    | (Resolved a, t') => f a t'
    | (Rejected e, t') => (Rejected e, t')
    end.

Declare Scope promise_scope.
Delimit Scope promise_scope with promise.
Notation "p '.then' f" := (then_ p f)
  (at level 52, left associativity) : promise_scope.

(** A call on a collaborator: it is recorded, and settles the way the
    collaborator answers. *)
Definition invoke {A : Type} (c : Call) (answer : Outcome A) : TPromise A :=
  fun t => (answer, (t ++ [c])%list).

(** The calls a promise adds when run from an empty trace, and how it
    settles. *)
Definition calls {A : Type} (p : TPromise A) : Trace := snd (p []).
Definition settles {A : Type} (p : TPromise A) : Outcome A := fst (p []).

(* ===================================================================== *)
(** ** The injected services *)
(* ===================================================================== *)

(** [IPreferencesService]: how each opened surface settles. *)
Record IPreferencesService : Type := {
  openGlobalSettings_answer : Outcome any;
  openGlobalKeybindingSettings_answer : bool -> Outcome any;
  openWorkspaceSettings_answer : Outcome any;
  openFolderSettings_answer : URI -> Outcome any;
  configureSettingsForLanguage_answer : string -> Outcome any
}.

Definition openGlobalSettings (s : IPreferencesService) : TPromise any :=
  invoke CallOpenGlobalSettings (openGlobalSettings_answer s).

Definition openGlobalKeybindingSettings (s : IPreferencesService)
  (textual : bool) : TPromise any :=
  invoke (CallOpenGlobalKeybindingSettings textual)
         (openGlobalKeybindingSettings_answer s textual).

Definition openWorkspaceSettings (s : IPreferencesService) : TPromise any :=
  invoke CallOpenWorkspaceSettings (openWorkspaceSettings_answer s).

Definition openFolderSettings (s : IPreferencesService) (folder : URI)
  : TPromise any :=
  invoke (CallOpenFolderSettings folder) (openFolderSettings_answer s folder).

Definition configureSettingsForLanguage (s : IPreferencesService)
  (lang : string) : TPromise any :=
  invoke (CallConfigureSettingsForLanguage lang)
         (configureSettingsForLanguage_answer s lang).

(** [ICommandService.executeCommand<IWorkspaceFolder>]: the folder the user
    picked, or none. *)
Record ICommandService : Type := {
  executeCommand_answer : CommandId -> Outcome (option IWorkspaceFolder)
}.

Definition executeCommand (s : ICommandService) (c : CommandId)
  : TPromise (option IWorkspaceFolder) :=
  invoke (CallExecuteCommand c) (executeCommand_answer s c).

(** [IQuickOpenService.pick]: the entry the user selected among those
    shown, or none. *)
Record IQuickOpenService : Type := {
  pick_answer :
    list IFilePickOpenEntry -> string -> Outcome (option IFilePickOpenEntry)
}.

Definition pick (s : IQuickOpenService) (picks : list IFilePickOpenEntry)
  (placeHolder : string) : TPromise (option IFilePickOpenEntry) :=
  invoke (CallPick picks placeHolder) (pick_answer s picks placeHolder).

(** [IModeService]: the synchronous look-ups are functions of the registry's
    content ([None] for [null]/[undefined]); materialising a mode is
    asynchronous. *)
Record IModeService : Type := {
  getRegisteredLanguageNames : list JSString;
  getModeIdForLanguageName : JSString -> option string;
  getExtensions : JSString -> option (list string);
  getFilenames : JSString -> option (list string);
  getOrCreateModeByLanguageName_answer : JSString -> Outcome IMode
}.

Definition getOrCreateModeByLanguageName (s : IModeService)
  (languageName : JSString) : TPromise IMode :=
  invoke (CallGetOrCreateModeByLanguageName languageName)
         (getOrCreateModeByLanguageName_answer s languageName).

(* ===================================================================== *)
(** ** Messages: [nls.localize] *)
(* ===================================================================== *)

(** Modelled from the spec: [nls.localize] (vs/nls) is not among the
    sources.  [nls.localize('languageDescriptionConfigured', "({0})", arg)]
    is taken with the default message given in the call: the "description
    string" is the message with the placeholder replaced by the argument, a
    missing identifier printing as JavaScript prints [null]. *)
Definition localize_languageDescriptionConfigured (arg : option string)
  : string :=
  ("(" ++ match arg with Some modeId => modeId | None => "null" end ++ ")")%string.

(** [nls.localize('pickLanguage', "Select Language")]. *)
Definition localize_pickLanguage : string := "Select Language"%string.

(* ===================================================================== *)
(** ** The base class and the workspace context service *)
(* ===================================================================== *)

(** Modelled from the spec: the base class [Action] (vs/base/common/actions)
    is not among the sources.  Per the glossary an action has an
    identifier, a label and an enabled state; a fresh action is enabled,
    [enabled = v] stores the flag, and the inherited teardown closes the
    action's own change emitter. *)
Record Action : Type := {
  _id : string;
  _label : string;
  _enabled : bool;
  _onDidChange_disposed : bool
}.

Definition Action_constructor (id label : string) : Action :=
  {| _id := id; _label := label; _enabled := true;
     _onDidChange_disposed := false |}.

Definition Action_set_enabled (value : bool) (a : Action) : Action :=
  {| _id := _id a; _label := _label a; _enabled := value;
     _onDidChange_disposed := _onDidChange_disposed a |}.

Definition Action_dispose (a : Action) : Action :=
  {| _id := _id a; _label := _label a; _enabled := _enabled a;
     _onDidChange_disposed := true |}.

(** The two events of the workspace context service the file listens to. *)
Inductive EventName : Type :=
| onDidChangeWorkbenchState
| onDidChangeWorkspaceFolders.

(** The handle a subscription leaves in the [disposables] array: disposing
    it removes listener [listener] from the emitter of [event]. *)
Record IDisposable : Type := {
  event : EventName;
  listener : nat
}.

(** [IWorkspaceContextService] as the actions see it: the two getters, and
    for each event the listeners registered by the action under study
    (each of them is the closure [() => this.update()]). *)
Record IWorkspaceContextService : Type := {
  getWorkbenchState : WorkbenchState;
  getWorkspace : IWorkspace;
  workbenchStateListeners : list nat;
  workspaceFoldersListeners : list nat;
  nextListener : nat
}.

Definition listeners (e : EventName) (s : IWorkspaceContextService)
  : list nat :=
  match e with
  | onDidChangeWorkbenchState => workbenchStateListeners s
  | onDidChangeWorkspaceFolders => workspaceFoldersListeners s
  end.

Definition set_listeners (e : EventName) (ls : list nat) (next : nat)
  (s : IWorkspaceContextService) : IWorkspaceContextService :=
  match e with
  | onDidChangeWorkbenchState =>
      {| getWorkbenchState := getWorkbenchState s;
         getWorkspace := getWorkspace s;
         workbenchStateListeners := ls;
         workspaceFoldersListeners := workspaceFoldersListeners s;
         nextListener := next |}
  | onDidChangeWorkspaceFolders =>
      {| getWorkbenchState := getWorkbenchState s;
         getWorkspace := getWorkspace s;
         workbenchStateListeners := workbenchStateListeners s;
         workspaceFoldersListeners := ls;
         nextListener := next |}
  end.

(** Modelled from the spec: the events of the service (vs/base/common/event)
    are not among the sources; a subscription is "an explicit observer
    registration returning a cancellation handle".
    [service.onDidChangeX(listener, thisArgs, disposables)]: the listener
    is registered, and the handle that undoes it is what the caller finds
    pushed on its [disposables]. *)
Definition subscribe (e : EventName) (s : IWorkspaceContextService)
  : IDisposable * IWorkspaceContextService :=
  let n := nextListener s in
  ({| event := e; listener := n |},
   set_listeners e (listeners e s ++ [n]) (S n) s).

(** [handle.dispose()]: the listener leaves its emitter. *)
Definition unsubscribe (s : IWorkspaceContextService) (d : IDisposable)
  : IWorkspaceContextService :=
  set_listeners (event d)
    (List.remove Nat.eq_dec (listener d) (listeners (event d) s))
    (nextListener s) s.

(** The service changing its own topology and folder list. *)
Definition set_workspace (st : WorkbenchState) (fs : list IWorkspaceFolder)
  (s : IWorkspaceContextService) : IWorkspaceContextService :=
  {| getWorkbenchState := st;
     getWorkspace := {| folders := fs |};
     workbenchStateListeners := workbenchStateListeners s;
     workspaceFoldersListeners := workspaceFoldersListeners s;
     nextListener := nextListener s |}.

(** The objects an availability-gated action lives among: the action
    itself, the context service it holds a reference to, and the log of
    the handles whose [dispose()] has been called, one item per call. *)
Record World (A : Type) : Type := {
  this : A;
  workspaceContextService : IWorkspaceContextService;
  released : list IDisposable
}.

(** Modelled from the spec: [dispose(disposables)] of
    vs/base/common/lifecycle is not among the sources.  It releases every
    stored handle, in order, and gives back the empty array that the
    actions store in place of the old one. *)
Definition lifecycle_dispose (ds : list IDisposable)
  (s : IWorkspaceContextService) (log : list IDisposable)
  : list IDisposable * IWorkspaceContextService * list IDisposable :=
  ([], fold_left unsubscribe ds s, log ++ ds).

(** What happens around an action: the service changes its state, the
    service fires one of its events, or the owner disposes the action. *)
Inductive Step : Type :=
| Change (st : WorkbenchState) (fs : list IWorkspaceFolder)
| Notify (e : EventName)
| Dispose.

Definition is_Dispose (s : Step) : bool :=
  match s with Dispose => true | _ => false end.

Definition change {A : Type} (st : WorkbenchState)
  (fs : list IWorkspaceFolder) (w : World A) : World A :=
  {| this := this w;
     workspaceContextService := set_workspace st fs (workspaceContextService w);
     released := released w |}.

(** Firing an event calls every registered listener in turn; each one is
    [() => this.update()]. *)
Definition fire {A : Type} (update : World A -> World A) (e : EventName)
  (w : World A) : World A :=
  fold_left (fun w' _ => update w') (listeners e (workspaceContextService w)) w.

Definition step {A : Type} (update dispose : World A -> World A)
  (w : World A) (s : Step) : World A :=
  match s with
  | Change st fs => change st fs w
  | Notify e => fire update e w
  | Dispose => dispose w
  end.

Definition exec {A : Type} (update dispose : World A -> World A)
  (w : World A) (steps : list Step) : World A :=
  fold_left (step update dispose) steps w.

Definition WorkbenchState_eqb (a b : WorkbenchState) : bool :=
  match a, b with
  | EMPTY, EMPTY | FOLDER, FOLDER | WORKSPACE, WORKSPACE => true
  | _, _ => false
  end.

(* ===================================================================== *)
(** ** The actions *)
(* ===================================================================== *)

Module OpenGlobalSettingsAction.

Definition ID : string := "workbench.action.openGlobalSettings"%string.
Definition LABEL : string := "Open User Settings"%string.

Record t : Type := {
  super : Action;
  preferencesService : IPreferencesService
}.

Definition constructor (id label : string) (prefs : IPreferencesService) : t :=
  {| super := Action_constructor id label; preferencesService := prefs |}.

Definition run (self : t) : TPromise any :=
  openGlobalSettings (preferencesService self).

End OpenGlobalSettingsAction.

Module OpenGlobalKeybindingsAction.

Definition ID : string := "workbench.action.openGlobalKeybindings"%string.
Definition LABEL : string := "Open Keyboard Shortcuts"%string.

Record t : Type := {
  super : Action;
  preferencesService : IPreferencesService
}.

Definition constructor (id label : string) (prefs : IPreferencesService) : t :=
  {| super := Action_constructor id label; preferencesService := prefs |}.

Definition run (self : t) : TPromise any :=
  openGlobalKeybindingSettings (preferencesService self) false.

End OpenGlobalKeybindingsAction.

Module OpenGlobalKeybindingsFileAction.

Definition ID : string := "workbench.action.openGlobalKeybindingsFile"%string.
Definition LABEL : string := "Open Keyboard Shortcuts File"%string.

Record t : Type := {
  super : Action;
  preferencesService : IPreferencesService
}.

Definition constructor (id label : string) (prefs : IPreferencesService) : t :=
  {| super := Action_constructor id label; preferencesService := prefs |}.

Definition run (self : t) : TPromise any :=
  openGlobalKeybindingSettings (preferencesService self) true.

End OpenGlobalKeybindingsFileAction.

Module OpenWorkspaceSettingsAction.

Definition ID : string := "workbench.action.openWorkspaceSettings"%string.
Definition LABEL : string := "Open Workspace Settings"%string.

Record t : Type := {
  super : Action;
  disposables : list IDisposable;
  preferencesService : IPreferencesService
}.

Definition enabled (w : World t) : bool := _enabled (super (this w)).

Definition set_enabled (value : bool) (w : World t) : World t :=
  {| this := {| super := Action_set_enabled value (super (this w));
                disposables := disposables (this w);
                preferencesService := preferencesService (this w) |};
     workspaceContextService := workspaceContextService w;
     released := released w |}.

(** Lines 91-93. *)
Definition update (w : World t) : World t :=
  set_enabled
    (negb (WorkbenchState_eqb
             (getWorkbenchState (workspaceContextService w)) EMPTY))
    w.

(** [event(() => this.update(), this, this.disposables)]. *)
Definition listen (e : EventName) (w : World t) : World t :=
  let (d, s) := subscribe e (workspaceContextService w) in
  {| this := {| super := super (this w);
                disposables := disposables (this w) ++ [d];
                preferencesService := preferencesService (this w) |};
     workspaceContextService := s;
     released := released w |}.

(** [super(id, label)] together with the field initialiser of line 78. *)
Definition super_ (id label : string) (prefs : IPreferencesService)
  (ctx : IWorkspaceContextService) : World t :=
  {| this := {| super := Action_constructor id label;
                disposables := [];
                preferencesService := prefs |};
     workspaceContextService := ctx;
     released := [] |}.

(** Lines 80-89. *)
Definition constructor (id label : string) (prefs : IPreferencesService)
  (ctx : IWorkspaceContextService) : World t :=
  listen onDidChangeWorkbenchState (update (super_ id label prefs ctx)).

(** Lines 95-97. *)
Definition run (w : World t) : TPromise any :=
  openWorkspaceSettings (preferencesService (this w)).

(** Lines 99-103. *)
Definition dispose (w : World t) : World t :=
  let '(ds, s, log) :=
    lifecycle_dispose (disposables (this w)) (workspaceContextService w)
                      (released w) in
  {| this := {| super := Action_dispose (super (this w));
                disposables := ds;
                preferencesService := preferencesService (this w) |};
     workspaceContextService := s;
     released := log |}.

Definition after (w : World t) (steps : list Step) : World t :=
  exec update dispose w steps.

End OpenWorkspaceSettingsAction.

Module OpenFolderSettingsAction.

Definition ID : string := "workbench.action.openFolderSettings"%string.
Definition LABEL : string := "Open Folder Settings"%string.

Record t : Type := {
  super : Action;
  disposables : list IDisposable;
  preferencesService : IPreferencesService;
  commandService : ICommandService
}.

Definition enabled (w : World t) : bool := _enabled (super (this w)).

Definition set_enabled (value : bool) (w : World t) : World t :=
  {| this := {| super := Action_set_enabled value (super (this w));
                disposables := disposables (this w);
                preferencesService := preferencesService (this w);
                commandService := commandService (this w) |};
     workspaceContextService := workspaceContextService w;
     released := released w |}.

(** Lines 126-128. *)
Definition update (w : World t) : World t :=
  set_enabled
    (WorkbenchState_eqb (getWorkbenchState (workspaceContextService w))
                        WORKSPACE
     && (0 <? List.length (folders (getWorkspace (workspaceContextService w)))))
    w.

(** [event(() => this.update(), this, this.disposables)]. *)
Definition listen (e : EventName) (w : World t) : World t :=
  let (d, s) := subscribe e (workspaceContextService w) in
  {| this := {| super := super (this w);
                disposables := disposables (this w) ++ [d];
                preferencesService := preferencesService (this w);
                commandService := commandService (this w) |};
     workspaceContextService := s;
     released := released w |}.

(** [super(id, label)] together with the field initialiser of line 110. *)
Definition super_ (id label : string) (prefs : IPreferencesService)
  (ctx : IWorkspaceContextService) (cmds : ICommandService) : World t :=
  {| this := {| super := Action_constructor id label;
                disposables := [];
                preferencesService := prefs;
                commandService := cmds |};
     workspaceContextService := ctx;
     released := [] |}.

(** Lines 113-124. *)
Definition constructor (id label : string) (prefs : IPreferencesService)
  (ctx : IWorkspaceContextService) (cmds : ICommandService) : World t :=
  listen onDidChangeWorkspaceFolders
    (listen onDidChangeWorkbenchState
       (update (super_ id label prefs ctx cmds))).

(** Lines 130-138; a folder descriptor is an object, hence truthy. *)
Definition run (w : World t) : TPromise any :=
  (executeCommand (commandService (this w)) PICK_WORKSPACE_FOLDER_COMMAND
   .then (fun workspaceFolder =>
     match workspaceFolder with
     | Some f => openFolderSettings (preferencesService (this w)) (uri f)
     | None => TPromise_as null
     end))%promise.

(** Lines 140-144. *)
Definition dispose (w : World t) : World t :=
  let '(ds, s, log) :=
    lifecycle_dispose (disposables (this w)) (workspaceContextService w)
                      (released w) in
  {| this := {| super := Action_dispose (super (this w));
                disposables := ds;
                preferencesService := preferencesService (this w);
                commandService := commandService (this w) |};
     workspaceContextService := s;
     released := log |}.

Definition after (w : World t) (steps : list Step) : World t :=
  exec update dispose w steps.

End OpenFolderSettingsAction.

Module ConfigureLanguageBasedSettingsAction.

Definition ID : string := "workbench.action.configureLanguageBasedSettings"%string.
Definition LABEL : string := "Configure Language Specific Settings..."%string.

Record t : Type := {
  super : Action;
  modeService : IModeService;
  quickOpenService : IQuickOpenService;
  preferencesService : IPreferencesService
}.

Definition constructor (id label : string) (modes : IModeService)
  (quick : IQuickOpenService) (prefs : IPreferencesService) : t :=
  {| super := Action_constructor id label;
     modeService := modes;
     quickOpenService := quick;
     preferencesService := prefs |}.

(** Lines 165-175: [extensions && extensions.length], then the same test
    on the file names; [fakeResource] stays unassigned otherwise. *)
Definition fakeResource (self : t) (lang : JSString) : option URI :=
  match getExtensions (modeService self) lang with
  | Some (extension :: _) => Some (URI_file extension)
  | _ =>
      match getFilenames (modeService self) lang with
      | Some (filename :: _) => Some (URI_file filename)
      | _ => None
      end
  end.

(** The callback of [map], lines 163-181. *)
Definition entry {P : StringPrototype} (self : t) (lang : JSString)
  : IFilePickOpenEntry :=
  {| label := lang;
     resource := fakeResource self lang;
     description :=
       localize_languageDescriptionConfigured
         (getModeIdForLanguageName (modeService self) (toLowerCase lang)) |}.

(** Lines 162-181. *)
Definition picks {P : StringPrototype} (self : t)
  : list IFilePickOpenEntry :=
  let languages := getRegisteredLanguageNames (modeService self) in
  map (entry self) (sort languages).

(** Lines 161-192; an entry is an object, hence truthy. *)
Definition run {P : StringPrototype} (self : t) : TPromise any :=
  (pick (quickOpenService self) (picks self) localize_pickLanguage
   .then (fun chosen =>
     match chosen with
     | Some p =>
         getOrCreateModeByLanguageName (modeService self) (label p)
         .then (fun mode =>
           configureSettingsForLanguage (preferencesService self)
             (language (getLanguageIdentifier mode)))
     | None => TPromise_as undefined
     end))%promise.

End ConfigureLanguageBasedSettingsAction.

(* ===================================================================== *)
(** ** Sample collaborators, for running the actions on concrete inputs *)
(* ===================================================================== *)

Definition quiet_preferences : IPreferencesService :=
  {| openGlobalSettings_answer := Resolved undefined;
     openGlobalKeybindingSettings_answer := fun _ => Resolved undefined;
     openWorkspaceSettings_answer := Resolved undefined;
     openFolderSettings_answer := fun _ => Resolved undefined;
     configureSettingsForLanguage_answer := fun _ => Resolved undefined |}.

Definition mode_of (languageId : string) : IMode :=
  {| getLanguageIdentifier := {| language := languageId |} |}.

(** A user who selects the first entry shown, and one who dismisses the
    picker. *)
Definition picks_first : IQuickOpenService :=
  {| pick_answer := fun shown _ => Resolved (hd_error shown) |}.

Definition dismisses : IQuickOpenService :=
  {| pick_answer := fun _ _ => Resolved None |}.

(** A host whose lower-casing knows the letters A-Z only.  It agrees with
    [String.prototype.toLowerCase] on strings of ASCII characters, which is
    all the samples below hand to it. *)
Definition toLowerCase_ascii (s : JSString) : JSString :=
  map (fun u => if ((65 <=? u) && (u <=? 90))%N then (u + 32)%N else u) s.

Definition ascii_host : StringPrototype :=
  {| toLowerCase := toLowerCase_ascii |}.

(** The registry of the spec's examples: TypeScript with two extensions,
    Makefile with a file name only, and two languages with neither. *)
Definition sample_registry : IModeService :=
  {| getRegisteredLanguageNames :=
       [js "TypeScript"; js "C"; js "Go"; js "Makefile"];
     getModeIdForLanguageName := fun alias =>
       if JSString_eqb alias (js "typescript") then Some "typescript"%string
       else if JSString_eqb alias (js "c") then Some "c"%string
       else if JSString_eqb alias (js "go") then Some "go"%string
       else if JSString_eqb alias (js "makefile") then Some "makefile"%string
       else None;
     getExtensions := fun lang =>
       if JSString_eqb lang (js "TypeScript") then Some [".ts"; ".tsx"]%string
       else if JSString_eqb lang (js "Makefile") then Some []
       else None;
     getFilenames := fun lang =>
       if JSString_eqb lang (js "Makefile") then Some ["Makefile"]%string
       else if JSString_eqb lang (js "C") then Some []
       else None;
     getOrCreateModeByLanguageName_answer := fun lang =>
       if JSString_eqb lang (js "TypeScript")
       then Resolved (mode_of "typescript")
       else if JSString_eqb lang (js "C") then Resolved (mode_of "c")
       else if JSString_eqb lang (js "Go") then Resolved (mode_of "go")
       else if JSString_eqb lang (js "Makefile")
       then Resolved (mode_of "makefile")
       else Resolved (mode_of "plaintext") |}.

Definition three_languages : IModeService :=
  {| getRegisteredLanguageNames := [js "TypeScript"; js "C"; js "Go"];
     getModeIdForLanguageName := getModeIdForLanguageName sample_registry;
     getExtensions := getExtensions sample_registry;
     getFilenames := getFilenames sample_registry;
     getOrCreateModeByLanguageName_answer :=
       getOrCreateModeByLanguageName_answer sample_registry |}.

(** A registry holding two languages whose display names differ by case
    only: "R" with identifier "r" and "r" with identifier "rscript".  Its
    alias table is keyed by lower-cased names, so both names share the key
    "r", which the later registration owns; modes are found by the exact
    display name. *)
Definition colliding_registry : IModeService :=
  {| getRegisteredLanguageNames := [js "R"; js "r"];
     getModeIdForLanguageName := fun alias =>
       if JSString_eqb alias (js "r") then Some "rscript"%string else None;
     getExtensions := fun _ => None;
     getFilenames := fun _ => None;
     getOrCreateModeByLanguageName_answer := fun lang =>
       if JSString_eqb lang (js "R") then Resolved (mode_of "r")
       else Resolved (mode_of "rscript") |}.

(** A registry whose modes cannot be materialised. *)
Definition failing_registry : IModeService :=
  {| getRegisteredLanguageNames := [js "Go"];
     getModeIdForLanguageName := fun alias =>
       if JSString_eqb alias (js "go") then Some "go"%string else None;
     getExtensions := fun _ => Some [".go"]%string;
     getFilenames := fun _ => None;
     getOrCreateModeByLanguageName_answer := fun _ => Rejected (object 0) |}.

Definition configure_languages (modes : IModeService)
  (quick : IQuickOpenService) : ConfigureLanguageBasedSettingsAction.t :=
  ConfigureLanguageBasedSettingsAction.constructor
    ConfigureLanguageBasedSettingsAction.ID
    ConfigureLanguageBasedSettingsAction.LABEL
    modes quick quiet_preferences.

(** A window with nothing open and no listener registered yet. *)
Definition empty_window : IWorkspaceContextService :=
  {| getWorkbenchState := EMPTY;
     getWorkspace := {| folders := [] |};
     workbenchStateListeners := [];
     workspaceFoldersListeners := [];
     nextListener := 0 |}.

Definition folder_at (path : string) (i : nat) : IWorkspaceFolder :=
  {| uri := URI_file path; name := path; index := i |}.

Definition picks_folder (f : option IWorkspaceFolder) : ICommandService :=
  {| executeCommand_answer := fun _ => Resolved f |}.

Definition workspace_settings_action (ctx : IWorkspaceContextService)
  : World OpenWorkspaceSettingsAction.t :=
  OpenWorkspaceSettingsAction.constructor
    OpenWorkspaceSettingsAction.ID OpenWorkspaceSettingsAction.LABEL
    quiet_preferences ctx.

Definition folder_settings_action (ctx : IWorkspaceContextService)
  (cmds : ICommandService) : World OpenFolderSettingsAction.t :=
  OpenFolderSettingsAction.constructor
    OpenFolderSettingsAction.ID OpenFolderSettingsAction.LABEL
    quiet_preferences ctx cmds.

(* ===================================================================== *)
(** ** Facts about the string order and [sort] *)
(* ===================================================================== *)

Definition string_le (a b : JSString) : Prop := JSString_leb a b = true.

(** The listeners registered with the service all belong to handles the
    action still holds. *)
Definition owned {A : Type} (handles : A -> list IDisposable) (w : World A)
  : Prop :=
  forall e l, In l (listeners e (workspaceContextService w)) ->
              In {| event := e; listener := l |} (handles (this w)).

(** No listener is registered for any event. *)
Definition quiet {A : Type} (w : World A) : Prop :=
  forall e, listeners e (workspaceContextService w) = [].

(** No step disposes the action. *)
Definition live (steps : list Step) : Prop :=
  forallb (fun s => negb (is_Dispose s)) steps = true.

(** [a] occurs somewhere before [b] in [l]. *)
Definition precedes (a b : JSString) (l : list JSString) : Prop :=
  exists l1 l2 l3, l = l1 ++ a :: l2 ++ b :: l3.

Lemma JSString_compare_antisym (a : JSString) :
  forall b, JSString_compare b a = CompOpp (JSString_compare a b).
Proof.
  induction a as [|x a IH]; intros [|y b]; simpl; try reflexivity.
  rewrite (N.compare_antisym x y).
  destruct (x ?= y)%N; simpl; auto.
Qed.

Lemma JSString_compare_eq (a : JSString) :
  forall b, JSString_compare a b = Eq -> a = b.
Proof.
  induction a as [|x a IH]; intros [|y b]; simpl; try congruence.
  destruct (x ?= y)%N eqn:Hxy; try discriminate.
  apply N.compare_eq_iff in Hxy. intros H. f_equal; auto.
Qed.

Lemma string_le_total (a b : JSString) : string_le a b \/ string_le b a.
Proof.
  unfold string_le, JSString_leb. rewrite (JSString_compare_antisym a b).
  destruct (JSString_compare a b); simpl; auto.
Qed.

Lemma string_le_trans (a b c : JSString) :
  string_le a b -> string_le b c -> string_le a c.
Proof.
  unfold string_le, JSString_leb. revert b c.
  induction a as [|x a IH]; intros [|y b] [|z c]; simpl; try congruence.
  destruct (x ?= y)%N eqn:Hxy; try congruence;
    destruct (y ?= z)%N eqn:Hyz; try congruence; intros Hab Hbc.
  - apply N.compare_eq_iff in Hxy. subst y. rewrite Hyz. eauto.
  - apply N.compare_eq_iff in Hxy. subst y. now rewrite Hyz.
  - apply N.compare_eq_iff in Hyz. subst z. now rewrite Hxy.
  - rewrite N.compare_lt_iff in Hxy, Hyz.
    now rewrite (proj2 (N.compare_lt_iff x z) (N.lt_trans _ _ _ Hxy Hyz)).
Qed.

Lemma string_le_antisym (a b : JSString) :
  string_le a b -> string_le b a -> a = b.
Proof.
  unfold string_le, JSString_leb. rewrite (JSString_compare_antisym a b).
  destruct (JSString_compare a b) eqn:H; simpl; try discriminate.
  intros _ _. now apply JSString_compare_eq.
Qed.

Lemma insert_Permutation (x : JSString) (l : list JSString) :
  Permutation (x :: l) (insert x l).
Proof.
  induction l as [|y l IH]; simpl; [reflexivity|].
  destruct (JSString_leb x y); [reflexivity|].
  eapply perm_trans; [apply perm_swap | now apply perm_skip].
Qed.

Lemma insert_StronglySorted (x : JSString) (l : list JSString) :
  StronglySorted string_le l -> StronglySorted string_le (insert x l).
Proof.
  induction 1 as [|y l S IH F]; simpl.
  - repeat constructor.
  - destruct (JSString_leb x y) eqn:Hxy.
    + constructor; [now constructor|]. constructor; [exact Hxy|].
      eapply Forall_impl; [|exact F]. intros z. now apply string_le_trans.
    + assert (string_le y x) as Hyx
        by (destruct (string_le_total x y) as [H|H];
            [unfold string_le in H; congruence | exact H]).
      constructor; [exact IH|].
      eapply Permutation_Forall; [apply insert_Permutation|].
      now constructor.
Qed.

Lemma sort_StronglySorted (l : list JSString) :
  StronglySorted string_le (sort l).
Proof.
  induction l as [|x l IH]; simpl; [constructor|].
  now apply insert_StronglySorted.
Qed.

Lemma sort_Permutation (l : list JSString) : Permutation l (sort l).
Proof.
  induction l as [|x l IH]; simpl; [constructor|].
  eapply perm_trans; [apply perm_skip, IH | apply insert_Permutation].
Qed.

(** A list of strings has one sorted arrangement only, so the engine's
    choice of sorting algorithm cannot be observed. *)
Lemma sorted_arrangement_unique (l1 : list JSString) :
  forall l2, StronglySorted string_le l1 -> StronglySorted string_le l2 ->
             Permutation l1 l2 -> l1 = l2.
Proof.
  induction l1 as [|a l1 IH]; intros l2 S1 S2 P.
  - now apply Permutation_nil in P.
  - destruct l2 as [|b l2].
    + apply Permutation_sym, Permutation_nil in P. discriminate.
    + inversion S1 as [|? ? S1' F1]; inversion S2 as [|? ? S2' F2]; subst.
      assert (a = b) as ->.
      { assert (In a (b :: l2)) as Ia
          by (eapply Permutation_in; [exact P | now left]).
        assert (In b (a :: l1)) as Ib
          by (eapply Permutation_in;
              [apply Permutation_sym; exact P | now left]).
        destruct Ia as [->|Ia]; [reflexivity|].
        destruct Ib as [->|Ib]; [reflexivity|].
        rewrite Forall_forall in F1, F2.
        apply string_le_antisym; auto. }
      f_equal. apply IH; auto. eapply Permutation_cons_inv; eauto.
Qed.

Lemma sort_unique (l l' : list JSString) :
  Permutation l l' -> StronglySorted string_le l' -> sort l = l'.
Proof.
  intros P S. apply sorted_arrangement_unique; auto using sort_StronglySorted.
  eapply Permutation_trans; [apply Permutation_sym, sort_Permutation | exact P].
Qed.

(** The order is that of code units, not of code points: U+1F600, written
    with the surrogates D83D DE00, is put before U+FF21. *)
Example sort_by_code_units :
  sort [[0xFF21%N]; [0xD83D%N; 0xDE00%N]] = [[0xD83D%N; 0xDE00%N]; [0xFF21%N]].
Proof. reflexivity. Qed.

(* ===================================================================== *)
(** ** The plain openers *)
(* ===================================================================== *)

(** Each of the three global openers makes one call, the one its name
    says, and settles as that call does; the two keybindings openers differ
    in the flag they pass only. *)
Fact global_openers_delegate (id label : string) (prefs : IPreferencesService)
  (t0 : Trace) :
  OpenGlobalSettingsAction.run
    (OpenGlobalSettingsAction.constructor id label prefs) t0
  = (openGlobalSettings_answer prefs, t0 ++ [CallOpenGlobalSettings])
  /\ OpenGlobalKeybindingsAction.run
       (OpenGlobalKeybindingsAction.constructor id label prefs) t0
     = (openGlobalKeybindingSettings_answer prefs false,
        t0 ++ [CallOpenGlobalKeybindingSettings false])
  /\ OpenGlobalKeybindingsFileAction.run
       (OpenGlobalKeybindingsFileAction.constructor id label prefs) t0
     = (openGlobalKeybindingSettings_answer prefs true,
        t0 ++ [CallOpenGlobalKeybindingSettings true]).
Proof. repeat split. Qed.

(* ===================================================================== *)
(** ** The language configurator *)
(* ===================================================================== *)

(** Refutes a hypothesis [H] saying that a call occurs in an explicit
    trace made of calls of other kinds. *)
Ltac absent_call H :=
  simpl in H; repeat (destruct H as [H|H]; [discriminate H|]); destruct H.

Section LanguageConfigurator.

Import ConfigureLanguageBasedSettingsAction.

Lemma picks_labels {P : StringPrototype} (self : t) :
  map label (picks self) = sort (getRegisteredLanguageNames (modeService self)).
Proof.
  unfold picks. rewrite map_map. simpl. apply map_id.
Qed.

Lemma picks_entries {P : StringPrototype} (self : t) :
  Forall (fun e => e = entry self (label e)
                   /\ In (label e) (getRegisteredLanguageNames (modeService self)))
         (picks self).
Proof.
  unfold picks. apply Forall_forall. intros e He.
  apply in_map_iff in He. destruct He as (lang & <- & Hin). split.
  - reflexivity.
  - simpl. eapply Permutation_in; [apply Permutation_sym, sort_Permutation|].
    exact Hin.
Qed.

(** The picker is the first collaborator [run] calls, and it is handed
    exactly [picks]. *)
Lemma run_shows_picks {P : StringPrototype} (self : t) (t0 : Trace) :
  exists rest,
    snd (run self t0)
    = (t0 ++ CallPick (picks self) localize_pickLanguage :: rest)%list.
Proof.
  unfold run, then_, pick, invoke.
  destruct (pick_answer (quickOpenService self) (picks self)
                        localize_pickLanguage) as [[p|]|err]; simpl.
  - unfold getOrCreateModeByLanguageName, invoke.
    destruct (getOrCreateModeByLanguageName_answer (modeService self) (label p))
      as [mode|err]; simpl.
    + eexists. rewrite <- !app_assoc. simpl. reflexivity.
    + eexists. rewrite <- !app_assoc. simpl. reflexivity.
  - exists []. reflexivity.
  - exists []. reflexivity.
Qed.

(** C2, as the code has it.  Every entry shown stands for a registered
    display name, every registered display name has its entry, and the
    entry's description is "(id)" where id is what the mode registry's
    [getModeIdForLanguageName] gives for the LOWER-CASED display name, that
    is for what the host's [toLowerCase] makes of the display name,
    whatever the host and whatever the characters of the name. *)
Theorem picks_description_lowercased_lookup {P : StringPrototype} (self : t) :
  Permutation (getRegisteredLanguageNames (modeService self))
              (map label (picks self))
  /\ Forall (fun e =>
               In (label e) (getRegisteredLanguageNames (modeService self))
               /\ description e
                  = localize_languageDescriptionConfigured
                      (getModeIdForLanguageName (modeService self)
                                                (toLowerCase (label e))))
            (picks self).
Proof.
  split.
  - rewrite picks_labels. apply sort_Permutation.
  - eapply Forall_impl; [|apply picks_entries].
    intros e [He Hin]. split; [exact Hin|]. rewrite He at 1. reflexivity.
Qed.

(** C2 as stated fails.  With the two languages "R" (identifier "r") and
    "r" (identifier "rscript") registered, the entry labelled "R" is
    described as "(rscript)": that is neither what the registry gives for
    the display name "R" itself nor the identifier of the mode that "R"
    resolves to. *)
Lemma description_not_from_display_name :
  let self := configure_languages colliding_registry dismisses in
  exists e,
    In e (picks (P := ascii_host) self)
    /\ label e = js "R"
    /\ description e = "(rscript)"%string
    /\ description e
       <> localize_languageDescriptionConfigured
            (getModeIdForLanguageName (modeService self) (label e))
    /\ getOrCreateModeByLanguageName_answer (modeService self) (label e)
       = Resolved (mode_of "r").
Proof.
  exists (entry (P := ascii_host)
            (configure_languages colliding_registry dismisses) (js "R")).
  repeat split.
  - vm_compute. now left.
  - vm_compute. discriminate.
Qed.

(** The host plays no part in this beyond lower-casing "R" to "r", as every
    host does. *)
Remark colliding_names_share_description {P : StringPrototype} :
  toLowerCase (js "R") = js "r" ->
  description (entry (configure_languages colliding_registry dismisses)
                     (js "R"))
  = "(rscript)"%string.
Proof. intros H. unfold entry. cbn [description]. now rewrite H. Qed.

(** C3.  The labels shown are the registered display names in ascending
    lexicographic order of their UTF-16 code units: a sorted rearrangement
    of them, handed to the picker as the first thing [run] does; and
    languages TypeScript, C and Go, in whatever order the registry lists
    them, are shown as C, Go, TypeScript. *)
Theorem picks_sorted_by_label {P : StringPrototype} (self : t) :
  let names := getRegisteredLanguageNames (modeService self) in
  let shown := map label (picks self) in
  StronglySorted string_le shown
  /\ Permutation names shown
  /\ (forall t0, exists rest,
        snd (run self t0)
        = (t0 ++ CallPick (picks self) localize_pickLanguage :: rest)%list)
  /\ (Permutation names [js "TypeScript"; js "C"; js "Go"] ->
      shown = [js "C"; js "Go"; js "TypeScript"]).
Proof.
  cbv zeta. rewrite picks_labels. repeat split.
  - apply sort_StronglySorted.
  - apply sort_Permutation.
  - intros t0. apply run_shows_picks.
  - intros HP. apply sort_unique.
    + eapply Permutation_trans; [exact HP|].
      apply perm_trans with [js "C"; js "TypeScript"; js "Go"];
        [apply perm_swap | apply perm_skip, perm_swap].
    + repeat constructor.
Qed.

Lemma picks_sorted_by_label_witness :
  let self := configure_languages three_languages dismisses in
  Permutation (getRegisteredLanguageNames (modeService self))
              [js "TypeScript"; js "C"; js "Go"]
  /\ map label (picks (P := ascii_host) self)
     = [js "C"; js "Go"; js "TypeScript"].
Proof.
  cbv zeta.
  assert (Permutation
            (getRegisteredLanguageNames
               (modeService (configure_languages three_languages dismisses)))
            [js "TypeScript"; js "C"; js "Go"]) as HP
    by (simpl; apply Permutation_refl).
  split; [exact HP|].
  exact (proj2 (proj2 (proj2
           (picks_sorted_by_label (P := ascii_host)
              (configure_languages three_languages dismisses)))) HP).
Defined.

(** C4.  For every entry shown: when the language's extension list is
    registered and non-empty the resource is [URI.file] of its first
    element; when it is missing or empty and the file name list is
    registered and non-empty the resource is [URI.file] of the first file
    name; when both are missing or empty the entry has no resource.  On the
    sample registry: TypeScript, with extensions .ts and .tsx, gets .ts, and
    Makefile, with no extension and the file name Makefile, gets Makefile. *)
Theorem picks_resource {P : StringPrototype} (self : t) :
  Forall (fun e =>
    let extensions := getExtensions (modeService self) (label e) in
    let filenames := getFilenames (modeService self) (label e) in
    (forall l, extensions = Some l -> l <> [] ->
               exists x, hd_error l = Some x
                         /\ resource e = Some (URI_file x))
    /\ (extensions = None \/ extensions = Some [] ->
        forall l, filenames = Some l -> l <> [] ->
                  exists x, hd_error l = Some x
                            /\ resource e = Some (URI_file x))
    /\ (extensions = None \/ extensions = Some [] ->
        filenames = None \/ filenames = Some [] ->
        resource e = None))
    (picks self)
  /\ map (fun e => (label e, resource e))
         (picks (P := ascii_host)
                (configure_languages sample_registry dismisses))
     = [(js "C", None);
        (js "Go", None);
        (js "Makefile", Some (URI_file "Makefile"));
        (js "TypeScript", Some (URI_file ".ts"))].
Proof.
  split; [|reflexivity].
  eapply Forall_impl; [|apply picks_entries].
  intros e [He _]. cbv zeta.
  assert (resource e = fakeResource self (label e)) as ->
    by (rewrite He at 1; reflexivity).
  unfold fakeResource. repeat split.
  - intros l -> Hl. destruct l as [|x l]; [now elim Hl|].
    exists x. split; reflexivity.
  - intros Hext l -> Hl. destruct l as [|x l]; [now elim Hl|].
    exists x. split; [reflexivity|]. now destruct Hext as [-> | ->].
  - intros [-> | ->] [-> | ->]; reflexivity.
Qed.

Lemma run_unfold {P : StringPrototype} (self : t) (t0 : Trace) :
  let shown := picks self in
  let first := CallPick shown localize_pickLanguage in
  run self t0
  = match pick_answer (quickOpenService self) shown localize_pickLanguage with
    | Resolved (Some p) =>
        let second := CallGetOrCreateModeByLanguageName (label p) in
        match getOrCreateModeByLanguageName_answer (modeService self)
                (label p) with
        | Resolved mode =>
            let lang := language (getLanguageIdentifier mode) in
            (configureSettingsForLanguage_answer (preferencesService self) lang,
             t0 ++ [first; second; CallConfigureSettingsForLanguage lang])
        | Rejected err => (Rejected err, t0 ++ [first; second])
        end
    | Resolved None => (Resolved undefined, t0 ++ [first])
    | Rejected err => (Rejected err, t0 ++ [first])
    end%list.
Proof.
  cbv zeta. unfold run, then_, pick, invoke.
  destruct (pick_answer (quickOpenService self) (picks self)
                        localize_pickLanguage) as [[p|]|err]; try reflexivity.
  unfold getOrCreateModeByLanguageName, configureSettingsForLanguage, invoke.
  destruct (getOrCreateModeByLanguageName_answer (modeService self) (label p))
    as [mode|err]; simpl; rewrite <- !app_assoc; reflexivity.
Qed.

(** C5, as the code has it.  Whatever calls were made before:
    - when the picker is dismissed, [run] resolves with [undefined] having
      called nothing but the picker;
    - when an entry is selected and its display name resolves to a mode,
      [configureSettingsForLanguage] is called, once and last, with that
      mode's language identifier, and [run] settles as that call does;
    - when an entry is selected and resolving the mode fails, or when the
      picker itself fails, the failure is passed on and
      [configureSettingsForLanguage] is not called.
    So [configureSettingsForLanguage] is called if and only if an entry was
    selected and its mode was resolved. *)
Theorem run_configures_resolved_selection {P : StringPrototype} (self : t)
  (t0 : Trace) :
  let shown := picks self in
  let first := CallPick shown localize_pickLanguage in
  let selection :=
    pick_answer (quickOpenService self) shown localize_pickLanguage in
  let resolve := getOrCreateModeByLanguageName_answer (modeService self) in
  match selection with
  | Resolved None => run self t0 = (Resolved undefined, (t0 ++ [first])%list)
  | Resolved (Some p) =>
      let second := CallGetOrCreateModeByLanguageName (label p) in
      match resolve (label p) with
      | Resolved mode =>
          let lang := language (getLanguageIdentifier mode) in
          run self t0
          = (configureSettingsForLanguage_answer (preferencesService self) lang,
             (t0 ++ [first; second; CallConfigureSettingsForLanguage lang])%list)
      | Rejected err =>
          run self t0 = (Rejected err, (t0 ++ [first; second])%list)
      end
  | Rejected err => run self t0 = (Rejected err, (t0 ++ [first])%list)
  end
  /\ forall lang,
       In (CallConfigureSettingsForLanguage lang) (calls (run self)) <->
       exists p mode,
         selection = Resolved (Some p)
         /\ resolve (label p) = Resolved mode
         /\ lang = language (getLanguageIdentifier mode).
Proof.
  cbv zeta. split.
  - rewrite run_unfold. cbv zeta.
    destruct (pick_answer (quickOpenService self) (picks self)
                          localize_pickLanguage) as [[p|]|err]; try reflexivity.
    destruct (getOrCreateModeByLanguageName_answer (modeService self) (label p));
      reflexivity.
  - intros lang. unfold calls. rewrite run_unfold. cbv zeta.
    destruct (pick_answer (quickOpenService self) (picks self)
                          localize_pickLanguage) as [[p|]|err].
    + destruct (getOrCreateModeByLanguageName_answer (modeService self)
                  (label p)) as [mode|err] eqn:Hmode; simpl.
      * split.
        -- intros [H|[H|[H|[]]]]; try discriminate.
           injection H as <-. exists p, mode. auto.
        -- intros (p' & mode' & [= <-] & Hm & ->).
           rewrite Hmode in Hm. injection Hm as <-. auto.
      * split.
        -- intros H. absent_call H.
        -- intros (p' & mode' & [= <-] & Hm & _).
           rewrite Hmode in Hm. discriminate.
    + split.
      * intros H. absent_call H.
      * intros (p & mode & H & _). discriminate.
    + split.
      * intros H. absent_call H.
      * intros (p & mode & H & _). discriminate.
Qed.

(** C5 as stated fails.  The user selects "Go", the mode for "Go" cannot be
    materialised: the picker did return a selection, and
    [configureSettingsForLanguage] is never called; [run] ends rejected. *)
Lemma selection_without_configuration :
  let self := configure_languages failing_registry picks_first in
  let shown := picks (P := ascii_host) self in
  let outcome := run (P := ascii_host) self in
  (exists p,
     pick_answer (quickOpenService self) shown localize_pickLanguage
     = Resolved (Some p) /\ label p = js "Go")
  /\ calls outcome
     = [CallPick shown localize_pickLanguage;
        CallGetOrCreateModeByLanguageName (js "Go")]
  /\ settles outcome = Rejected (object 0)
  /\ ~ (exists lang,
          In (CallConfigureSettingsForLanguage lang) (calls outcome)).
Proof.
  cbv zeta. repeat split.
  - eexists. split; reflexivity.
  - intros [lang H]. vm_compute in H. absent_call H.
Qed.

End LanguageConfigurator.

(* ===================================================================== *)
(** ** Listeners and notifications *)
(* ===================================================================== *)

Section Notifications.

Context {A : Type} (update dispose : World A -> World A).

Hypothesis update_idempotent : forall w, update (update w) = update w.
Hypothesis update_keeps_service :
  forall w, workspaceContextService (update w) = workspaceContextService w.

Lemma call_listeners (ls : list nat) :
  forall w, ls <> [] -> fold_left (fun w' _ => update w') ls w = update w.
Proof.
  induction ls as [|l ls IH]; intros w Hls; [now elim Hls|].
  simpl. destruct ls as [|l' ls].
  - reflexivity.
  - rewrite IH by discriminate. apply update_idempotent.
Qed.

(** An event with a listener of the action runs [update]; an event without
    one leaves the action alone. *)
Lemma fire_subscribed (e : EventName) (w : World A) :
  listeners e (workspaceContextService w) <> [] -> fire update e w = update w.
Proof. intros H. unfold fire. now apply call_listeners. Qed.

Lemma fire_unsubscribed (e : EventName) (w : World A) :
  listeners e (workspaceContextService w) = [] -> fire update e w = w.
Proof. intros H. unfold fire. now rewrite H. Qed.

Lemma fire_keeps_service (e : EventName) (w : World A) :
  workspaceContextService (fire update e w) = workspaceContextService w.
Proof.
  destruct (listeners e (workspaceContextService w)) eqn:H.
  - now rewrite fire_unsubscribed.
  - rewrite fire_subscribed by (rewrite H; discriminate).
    apply update_keeps_service.
Qed.

(** Until the action is disposed, nothing takes a listener away. *)
Lemma exec_keeps_listeners (e : EventName) (steps : list Step) :
  forall w,
    forallb (fun s => negb (is_Dispose s)) steps = true ->
    listeners e (workspaceContextService (exec update dispose w steps))
    = listeners e (workspaceContextService w).
Proof.
  unfold exec. induction steps as [|s steps IH]; intros w Hsteps.
  - reflexivity.
  - simpl in Hsteps. apply andb_prop in Hsteps as [Hs Hsteps].
    simpl. rewrite IH by exact Hsteps.
    destruct s as [st fs|e'|]; simpl.
    + now destruct e.
    + now rewrite fire_keeps_service.
    + discriminate.
Qed.

Lemma exec_app (w : World A) (steps more : list Step) :
  exec update dispose w (steps ++ more)
  = exec update dispose (exec update dispose w steps) more.
Proof. unfold exec. apply fold_left_app. Qed.

(** A notification that reaches a live, subscribed action amounts to one
    call of [update]. *)
Lemma exec_then_notify (e : EventName) (w : World A) (steps : list Step) :
  forallb (fun s => negb (is_Dispose s)) steps = true ->
  listeners e (workspaceContextService w) <> [] ->
  exec update dispose w (steps ++ [Notify e])
  = update (exec update dispose w steps).
Proof.
  intros Hsteps Hsub. rewrite exec_app. cbn [exec fold_left step].
  apply fire_subscribed. now rewrite exec_keeps_listeners.
Qed.

End Notifications.

(* ===================================================================== *)
(** ** The workspace settings action *)
(* ===================================================================== *)

Section WorkspaceSettings.

Import OpenWorkspaceSettingsAction.

Lemma workspace_update_idempotent (w : World t) : update (update w) = update w.
Proof. reflexivity. Qed.

Lemma workspace_update_keeps_service (w : World t) :
  workspaceContextService (update w) = workspaceContextService w.
Proof. reflexivity. Qed.

Lemma workspace_update_enabled (w : World t) :
  enabled (update w) = true <->
  getWorkbenchState (workspaceContextService w) <> EMPTY.
Proof.
  unfold enabled, update. simpl.
  destruct (getWorkbenchState (workspaceContextService w)); simpl;
    split; congruence.
Qed.

Lemma workspace_constructor_listens (id label : string)
  (prefs : IPreferencesService) (ctx : IWorkspaceContextService) :
  listeners onDidChangeWorkbenchState
    (workspaceContextService (constructor id label prefs ctx)) <> [].
Proof.
  unfold constructor, listen. simpl. now destruct (workbenchStateListeners ctx).
Qed.

(** C7.  The flag of a newly constructed workspace settings action is set
    exactly when the window is not empty; and as long as the action has
    not been disposed, after each workbench-state-change notification,
    whatever happened before it, the flag is set exactly when the state
    the service then reports is not [EMPTY]. *)
Theorem workspace_settings_enabled_iff (id label : string)
  (prefs : IPreferencesService) (ctx : IWorkspaceContextService) :
  let w0 := constructor id label prefs ctx in
  (enabled w0 = true <-> getWorkbenchState ctx <> EMPTY)
  /\ forall steps,
       forallb (fun s => negb (is_Dispose s)) steps = true ->
       let w := after w0 (steps ++ [Notify onDidChangeWorkbenchState]) in
       enabled w = true <->
       getWorkbenchState (workspaceContextService w) <> EMPTY.
Proof.
  cbv zeta. split.
  - apply (workspace_update_enabled (super_ id label prefs ctx)).
  - intros steps Hsteps. unfold after.
    rewrite (exec_then_notify update dispose workspace_update_idempotent
               workspace_update_keeps_service _ _ _ Hsteps
               (workspace_constructor_listens id label prefs ctx)).
    rewrite workspace_update_keeps_service. apply workspace_update_enabled.
Qed.

Lemma workspace_settings_enabled_iff_witness :
  let steps := [Change FOLDER [folder_at "/home/project" 0]] in
  let w0 := workspace_settings_action empty_window in
  let w := after w0 (steps ++ [Notify onDidChangeWorkbenchState]) in
  forallb (fun s => negb (is_Dispose s)) steps = true
  /\ enabled w0 = false
  /\ enabled w = true
  /\ getWorkbenchState (workspaceContextService w) = FOLDER.
Proof.
  cbv zeta. split; [reflexivity|]. split; [reflexivity|].
  split; [|reflexivity].
  apply (proj2 (workspace_settings_enabled_iff ID LABEL quiet_preferences
                  empty_window)
               [Change FOLDER [folder_at "/home/project" 0]] eq_refl).
  simpl. discriminate.
Defined.

End WorkspaceSettings.

(* ===================================================================== *)
(** ** The folder settings action *)
(* ===================================================================== *)

Section FolderSettings.

Import OpenFolderSettingsAction.

Lemma folder_update_idempotent (w : World t) : update (update w) = update w.
Proof. reflexivity. Qed.

Lemma folder_update_keeps_service (w : World t) :
  workspaceContextService (update w) = workspaceContextService w.
Proof. reflexivity. Qed.

Lemma folder_update_enabled (w : World t) :
  enabled (update w) = true <->
  getWorkbenchState (workspaceContextService w) = WORKSPACE
  /\ 0 < List.length (folders (getWorkspace (workspaceContextService w))).
Proof.
  unfold enabled, update. simpl. rewrite andb_true_iff, Nat.ltb_lt.
  destruct (getWorkbenchState (workspaceContextService w)); simpl;
    intuition congruence.
Qed.

Lemma folder_constructor_listens (id label : string)
  (prefs : IPreferencesService) (ctx : IWorkspaceContextService)
  (cmds : ICommandService) (e : EventName) :
  listeners e (workspaceContextService (constructor id label prefs ctx cmds))
  <> [].
Proof.
  unfold constructor, listen. simpl.
  destruct e; simpl;
    [now destruct (workbenchStateListeners ctx)
    |now destruct (workspaceFoldersListeners ctx)].
Qed.

(** C1.  The flag of a newly constructed folder settings action is set
    exactly when the workbench state is [WORKSPACE] and the workspace has
    at least one folder; and as long as the action has not been disposed,
    after each workbench-state-change or folder-list-change notification,
    whatever happened before it, the flag is set exactly when the service
    then reports state [WORKSPACE] and a folder count above 0. *)
Theorem folder_settings_enabled_iff (id label : string)
  (prefs : IPreferencesService) (ctx : IWorkspaceContextService)
  (cmds : ICommandService) :
  let gate s :=
    getWorkbenchState s = WORKSPACE
    /\ 0 < List.length (folders (getWorkspace s)) in
  let w0 := constructor id label prefs ctx cmds in
  (enabled w0 = true <-> gate ctx)
  /\ forall steps e,
       forallb (fun s => negb (is_Dispose s)) steps = true ->
       let w := after w0 (steps ++ [Notify e]) in
       enabled w = true <-> gate (workspaceContextService w).
Proof.
  cbv zeta. split.
  - apply (folder_update_enabled (super_ id label prefs ctx cmds)).
  - intros steps e Hsteps. unfold after.
    rewrite (exec_then_notify update dispose folder_update_idempotent
               folder_update_keeps_service _ _ _ Hsteps
               (folder_constructor_listens id label prefs ctx cmds e)).
    rewrite folder_update_keeps_service. apply folder_update_enabled.
Qed.

Lemma folder_settings_enabled_iff_witness :
  let two := [folder_at "/srv/a" 0; folder_at "/srv/b" 1] in
  let opened := [Change WORKSPACE two] in
  let emptied := [Change WORKSPACE two; Notify onDidChangeWorkspaceFolders;
                  Change WORKSPACE []] in
  let w0 := folder_settings_action empty_window (picks_folder None) in
  forallb (fun s => negb (is_Dispose s)) opened = true
  /\ forallb (fun s => negb (is_Dispose s)) emptied = true
  /\ enabled w0 = false
  /\ enabled (after w0 (opened ++ [Notify onDidChangeWorkspaceFolders])) = true
  /\ enabled (after w0 (emptied ++ [Notify onDidChangeWorkbenchState])) <> true.
Proof.
  cbv zeta. split; [reflexivity|]. split; [reflexivity|].
  split; [reflexivity|].
  pose proof (proj2 (folder_settings_enabled_iff ID LABEL quiet_preferences
                       empty_window (picks_folder None))) as H.
  cbv zeta in H. split.
  - apply (H [Change WORKSPACE [folder_at "/srv/a" 0; folder_at "/srv/b" 1]]
             onDidChangeWorkspaceFolders eq_refl).
    simpl. split; [reflexivity | lia].
  - intros Hen.
    apply (H [Change WORKSPACE [folder_at "/srv/a" 0; folder_at "/srv/b" 1];
              Notify onDidChangeWorkspaceFolders; Change WORKSPACE []]
             onDidChangeWorkbenchState eq_refl) in Hen.
    simpl in Hen. lia.
Defined.

End FolderSettings.

(* ===================================================================== *)
(** ** Running and disposing the availability-gated actions *)
(* ===================================================================== *)

Lemma folder_run_unfold (w : World OpenFolderSettingsAction.t) (t0 : Trace) :
  let cmds := OpenFolderSettingsAction.commandService (this w) in
  let prefs := OpenFolderSettingsAction.preferencesService (this w) in
  let first := CallExecuteCommand PICK_WORKSPACE_FOLDER_COMMAND in
  OpenFolderSettingsAction.run w t0
  = match executeCommand_answer cmds PICK_WORKSPACE_FOLDER_COMMAND with
    | Resolved (Some f) =>
        (openFolderSettings_answer prefs (uri f),
         t0 ++ [first; CallOpenFolderSettings (uri f)])
    | Resolved None => (Resolved null, t0 ++ [first])
    | Rejected err => (Rejected err, t0 ++ [first])
    end%list.
Proof.
  cbv zeta.
  unfold OpenFolderSettingsAction.run, then_, executeCommand,
    openFolderSettings, invoke.
  destruct (executeCommand_answer _ _) as [[f|]|err]; try reflexivity.
  simpl. now rewrite <- app_assoc.
Qed.

(** C6.  Whatever calls were made before, [run] first executes the
    pick-workspace-folder command.  When the command resolves to a folder
    [openFolderSettings] is called next, with that folder's [uri], and
    [run] settles as that call does.  When the command resolves to none
    (or fails), nothing else is called and [run] resolves with [null] (or
    passes the failure on).  So [openFolderSettings] is called with [u]
    if and only if the command resolved to a folder whose [uri] is [u]. *)
Theorem folder_run_opens_picked_folder
  (w : World OpenFolderSettingsAction.t) (t0 : Trace) :
  let cmds := OpenFolderSettingsAction.commandService (this w) in
  let prefs := OpenFolderSettingsAction.preferencesService (this w) in
  let first := CallExecuteCommand PICK_WORKSPACE_FOLDER_COMMAND in
  let picked := executeCommand_answer cmds PICK_WORKSPACE_FOLDER_COMMAND in
  match picked with
  | Resolved (Some f) =>
      OpenFolderSettingsAction.run w t0
      = (openFolderSettings_answer prefs (uri f),
         (t0 ++ [first; CallOpenFolderSettings (uri f)])%list)
  | Resolved None =>
      OpenFolderSettingsAction.run w t0 = (Resolved null, (t0 ++ [first])%list)
  | Rejected err =>
      OpenFolderSettingsAction.run w t0 = (Rejected err, (t0 ++ [first])%list)
  end
  /\ forall u,
       In (CallOpenFolderSettings u) (calls (OpenFolderSettingsAction.run w))
       <-> exists f, picked = Resolved (Some f) /\ u = uri f.
Proof.
  cbv zeta. split.
  - rewrite folder_run_unfold. cbv zeta.
    now destruct (executeCommand_answer _ _) as [[f|]|err].
  - intros u. unfold calls. rewrite folder_run_unfold. cbv zeta.
    destruct (executeCommand_answer _ _) as [[f|]|err]; simpl.
    + split.
      * intros [H|[H|[]]]; [discriminate|]. injection H as <-. now exists f.
      * intros (f' & [= <-] & ->). auto.
    + split.
      * intros H. absent_call H.
      * intros (f & H & _). discriminate.
    + split.
      * intros H. absent_call H.
      * intros (f & H & _). discriminate.
Qed.

Lemma listeners_unsubscribe_same (s : IWorkspaceContextService)
  (d : IDisposable) :
  listeners (event d) (unsubscribe s d)
  = List.remove Nat.eq_dec (listener d) (listeners (event d) s).
Proof. unfold unsubscribe. now destruct (event d). Qed.

Lemma unsubscribe_shrinks (e : EventName) (s : IWorkspaceContextService)
  (d : IDisposable) (l : nat) :
  In l (listeners e (unsubscribe s d)) -> In l (listeners e s).
Proof.
  unfold unsubscribe. destruct (event d), e; simpl; auto;
    intros H; now apply in_remove in H.
Qed.

Lemma unsubscribe_all_shrinks (e : EventName) (ds : list IDisposable) (l : nat) :
  forall s, In l (listeners e (fold_left unsubscribe ds s)) ->
            In l (listeners e s).
Proof.
  induction ds as [|d ds IH]; intros s H; [exact H|].
  simpl in H. eapply unsubscribe_shrinks, IH, H.
Qed.

(** Releasing a list of handles leaves none of their listeners
    registered. *)
Lemma unsubscribe_all_removes (ds : list IDisposable) (d : IDisposable) :
  forall s, In d ds ->
            ~ In (listener d) (listeners (event d) (fold_left unsubscribe ds s)).
Proof.
  induction ds as [|d' ds IH]; intros s Hd; [contradiction|].
  simpl. destruct Hd as [->|Hd]; [|now apply IH].
  intros H. apply unsubscribe_all_shrinks in H.
  rewrite listeners_unsubscribe_same in H. now apply remove_In in H.
Qed.

(** Disposal does release the subscriptions: no listener behind a handle
    the action held is still registered afterwards. *)
Lemma dispose_unsubscribes :
  (forall (w : World OpenWorkspaceSettingsAction.t) d,
     In d (OpenWorkspaceSettingsAction.disposables (this w)) ->
     ~ In (listener d)
          (listeners (event d)
             (workspaceContextService (OpenWorkspaceSettingsAction.dispose w))))
  /\ (forall (w : World OpenFolderSettingsAction.t) d,
        In d (OpenFolderSettingsAction.disposables (this w)) ->
        ~ In (listener d)
             (listeners (event d)
                (workspaceContextService (OpenFolderSettingsAction.dispose w)))).
Proof.
  split; intros w d Hd; simpl; now apply unsubscribe_all_removes.
Qed.

(** A folder settings action built in an empty window registers listeners
    0 and 1; disposing it twice releases each once, after which a change
    of the workspace is no longer followed. *)
Example folder_settings_disposed_twice :
  let two := [folder_at "/srv/a" 0; folder_at "/srv/b" 1] in
  let w0 := folder_settings_action empty_window (picks_folder None) in
  let w2 := OpenFolderSettingsAction.after w0 [Dispose; Dispose] in
  OpenFolderSettingsAction.disposables (this w0)
  = [ {| event := onDidChangeWorkbenchState; listener := 0 |};
      {| event := onDidChangeWorkspaceFolders; listener := 1 |} ]
  /\ released w2 = OpenFolderSettingsAction.disposables (this w0)
  /\ workbenchStateListeners (workspaceContextService w2) = []
  /\ workspaceFoldersListeners (workspaceContextService w2) = []
  /\ OpenFolderSettingsAction.enabled
       (OpenFolderSettingsAction.after w2
          [Change WORKSPACE two; Notify onDidChangeWorkspaceFolders])
     = false.
Proof. cbv zeta. repeat split. Qed.

(** C8.  For both actions disposing twice is disposing once: the second
    call changes nothing in the action, in the context service or in the
    log of released handles.  After the first call the action holds no
    handle, and the log has grown by exactly the handles it held, each
    listed once per call of its [dispose()]. *)
Theorem dispose_idempotent :
  (forall w : World OpenWorkspaceSettingsAction.t,
     let w1 := OpenWorkspaceSettingsAction.dispose w in
     OpenWorkspaceSettingsAction.dispose w1 = w1
     /\ OpenWorkspaceSettingsAction.disposables (this w1) = []
     /\ released w1
        = released w ++ OpenWorkspaceSettingsAction.disposables (this w))
  /\ (forall w : World OpenFolderSettingsAction.t,
        let w1 := OpenFolderSettingsAction.dispose w in
        OpenFolderSettingsAction.dispose w1 = w1
        /\ OpenFolderSettingsAction.disposables (this w1) = []
        /\ released w1
           = released w ++ OpenFolderSettingsAction.disposables (this w)).
Proof.
  split; intros w; cbv zeta.
  - unfold OpenWorkspaceSettingsAction.dispose, lifecycle_dispose. simpl.
    rewrite app_nil_r. auto.
  - unfold OpenFolderSettingsAction.dispose, lifecycle_dispose. simpl.
    rewrite app_nil_r. auto.
Qed.

(** C9.  [run] does not look at the enabled flag: with the flag forced to
    either value the promise [run] builds is the same, so it makes the
    same calls and settles the same way from any trace.  A disabled
    workspace settings action still calls [openWorkspaceSettings]; a
    disabled folder settings action still executes the pick-folder
    command and, for a picked folder, [openFolderSettings]. *)
Theorem run_ignores_enabled :
  (forall (w : World OpenWorkspaceSettingsAction.t) (flag : bool) (t0 : Trace),
     OpenWorkspaceSettingsAction.run
       (OpenWorkspaceSettingsAction.set_enabled flag w) t0
     = OpenWorkspaceSettingsAction.run w t0
     /\ OpenWorkspaceSettingsAction.run
          (OpenWorkspaceSettingsAction.set_enabled false w) t0
        = (openWorkspaceSettings_answer
             (OpenWorkspaceSettingsAction.preferencesService (this w)),
           t0 ++ [CallOpenWorkspaceSettings]))
  /\ (forall (w : World OpenFolderSettingsAction.t) (flag : bool) (t0 : Trace),
        OpenFolderSettingsAction.run
          (OpenFolderSettingsAction.set_enabled flag w) t0
        = OpenFolderSettingsAction.run w t0
        /\ forall f,
             executeCommand_answer
               (OpenFolderSettingsAction.commandService (this w))
               PICK_WORKSPACE_FOLDER_COMMAND = Resolved (Some f) ->
             OpenFolderSettingsAction.run
               (OpenFolderSettingsAction.set_enabled false w) t0
             = (openFolderSettings_answer
                  (OpenFolderSettingsAction.preferencesService (this w))
                  (uri f),
                t0 ++ [CallExecuteCommand PICK_WORKSPACE_FOLDER_COMMAND;
                       CallOpenFolderSettings (uri f)])).
Proof.
  split; intros w flag t0; split; try reflexivity.
  intros f Hf. rewrite folder_run_unfold. cbv zeta. simpl. now rewrite Hf.
Qed.

Lemma run_ignores_enabled_witness :
  let w :=
    folder_settings_action empty_window
      (picks_folder (Some (folder_at "/srv/a" 0))) in
  executeCommand_answer (OpenFolderSettingsAction.commandService (this w))
                        PICK_WORKSPACE_FOLDER_COMMAND
  = Resolved (Some (folder_at "/srv/a" 0))
  /\ OpenFolderSettingsAction.enabled w = false
  /\ OpenFolderSettingsAction.run
       (OpenFolderSettingsAction.set_enabled false w) []
     = (Resolved undefined,
        [CallExecuteCommand PICK_WORKSPACE_FOLDER_COMMAND;
         CallOpenFolderSettings (URI_file "/srv/a")]).
Proof.
  cbv zeta. split; [reflexivity|]. split; [reflexivity|].
  apply (proj2 (proj2 run_ignores_enabled
                  (folder_settings_action empty_window
                     (picks_folder (Some (folder_at "/srv/a" 0))))
                  false [])
               (folder_at "/srv/a" 0)).
  reflexivity.
Defined.

(** C10.  In both constructors the flag is the one computed by the call of
    [update()] made right after [super(id, label)], before any listener is
    registered and with no notification involved: it already agrees with
    the state of the context service, which the constructor leaves as it
    found it.  (A base action starts enabled, so in an empty window the
    constructor's [update()] is what turns the flag off.) *)
Theorem constructor_updates_eagerly (id label : string)
  (prefs : IPreferencesService) (ctx : IWorkspaceContextService)
  (cmds : ICommandService) :
  let ws := OpenWorkspaceSettingsAction.constructor id label prefs ctx in
  let fs := OpenFolderSettingsAction.constructor id label prefs ctx cmds in
  (OpenWorkspaceSettingsAction.enabled ws
   = OpenWorkspaceSettingsAction.enabled
       (OpenWorkspaceSettingsAction.update
          (OpenWorkspaceSettingsAction.super_ id label prefs ctx))
   /\ getWorkbenchState (workspaceContextService ws) = getWorkbenchState ctx
   /\ (OpenWorkspaceSettingsAction.enabled ws = true <->
       getWorkbenchState ctx <> EMPTY))
  /\ (OpenFolderSettingsAction.enabled fs
      = OpenFolderSettingsAction.enabled
          (OpenFolderSettingsAction.update
             (OpenFolderSettingsAction.super_ id label prefs ctx cmds))
      /\ getWorkbenchState (workspaceContextService fs) = getWorkbenchState ctx
      /\ getWorkspace (workspaceContextService fs) = getWorkspace ctx
      /\ (OpenFolderSettingsAction.enabled fs = true <->
          getWorkbenchState ctx = WORKSPACE
          /\ 0 < List.length (folders (getWorkspace ctx))))
  /\ _enabled (Action_constructor id label) = true.
Proof.
  cbv zeta. split; [|split]; [| |reflexivity].
  - split; [reflexivity|]. split; [reflexivity|].
    apply (workspace_update_enabled
             (OpenWorkspaceSettingsAction.super_ id label prefs ctx)).
  - split; [reflexivity|]. split; [reflexivity|]. split; [reflexivity|].
    apply (folder_update_enabled
             (OpenFolderSettingsAction.super_ id label prefs ctx cmds)).
Qed.

(* ===================================================================== *)
(** ** The life of a subscription *)
(* ===================================================================== *)

Lemma fire_preserves {A X : Type} (update : World A -> World A)
  (f : World A -> X) :
  (forall w, f (update w) = f w) ->
  forall e w, f (fire update e w) = f w.
Proof.
  intros Hf e w. unfold fire.
  generalize (listeners e (workspaceContextService w)) as ls.
  intros ls. revert w.
  induction ls as [|l ls IH]; intros w; simpl; [reflexivity|].
  rewrite IH. apply Hf.
Qed.

Lemma unsubscribe_keeps_getters (s : IWorkspaceContextService)
  (d : IDisposable) :
  getWorkbenchState (unsubscribe s d) = getWorkbenchState s
  /\ getWorkspace (unsubscribe s d) = getWorkspace s.
Proof. unfold unsubscribe. now destruct (event d). Qed.

Lemma unsubscribe_all_keeps_getters (ds : list IDisposable) :
  forall s,
    getWorkbenchState (fold_left unsubscribe ds s) = getWorkbenchState s
    /\ getWorkspace (fold_left unsubscribe ds s) = getWorkspace s.
Proof.
  induction ds as [|d ds IH]; intros s; simpl; [now split|].
  destruct (IH (unsubscribe s d)) as [-> ->]. apply unsubscribe_keeps_getters.
Qed.

Lemma no_member_nil {X : Type} (l : list X) : (forall x, ~ In x l) -> l = [].
Proof.
  destruct l as [|x l]; [reflexivity|]. intros H. elim (H x). now left.
Qed.

Section Lifecycle.

Context {A : Type} (update dispose : World A -> World A).
Context (handles : A -> list IDisposable) (flag : A -> bool).

Hypothesis update_service :
  forall w, workspaceContextService (update w) = workspaceContextService w.
Hypothesis update_handles :
  forall w, handles (this (update w)) = handles (this w).
Hypothesis update_released : forall w, released (update w) = released w.
Hypothesis dispose_handles : forall w, handles (this (dispose w)) = [].
Hypothesis dispose_service :
  forall w, workspaceContextService (dispose w)
            = fold_left unsubscribe (handles (this w))
                        (workspaceContextService w).
Hypothesis dispose_released :
  forall w, released (dispose w) = released w ++ handles (this w).
Hypothesis dispose_flag : forall w, flag (this (dispose w)) = flag (this w).

(** Handles move from the action to the log at the first disposal, and
    nowhere else. *)
Lemma exec_releases (steps : list Step) :
  forall w,
    let w' := exec update dispose w steps in
    if existsb is_Dispose steps
    then handles (this w') = []
         /\ released w' = released w ++ handles (this w)
    else handles (this w') = handles (this w) /\ released w' = released w.
Proof.
  induction steps as [|s steps IH]; intros w; [now split|].
  cbv zeta. change (exec update dispose w (s :: steps))
    with (exec update dispose (step update dispose w s) steps).
  specialize (IH (step update dispose w s)). cbv zeta in IH.
  destruct s as [st fs|e|]; cbn [existsb is_Dispose orb step] in *.
  - exact IH.
  - rewrite (fire_preserves update (fun w => handles (this w))
               update_handles) in IH.
    rewrite (fire_preserves update (@released A) update_released) in IH.
    exact IH.
  - rewrite dispose_handles, dispose_released, app_nil_r in IH.
    destruct (existsb is_Dispose steps); destruct IH as [-> ->]; now split.
Qed.

Lemma exec_keeps_owned (steps : list Step) :
  forall w, owned handles w -> owned handles (exec update dispose w steps).
Proof.
  induction steps as [|s steps IH]; intros w Hw; [exact Hw|].
  apply IH. destruct s as [st fs|e|]; cbn [step].
  - intros e l Hl. apply Hw. now destruct e.
  - unfold owned.
    rewrite (fire_preserves update (@workspaceContextService A) update_service).
    rewrite (fire_preserves update (fun w => handles (this w)) update_handles).
    exact Hw.
  - intros e l Hl. exfalso. rewrite dispose_service in Hl.
    assert (Hin := Hl). apply unsubscribe_all_shrinks in Hin.
    apply (unsubscribe_all_removes _ _ (workspaceContextService w)
             (Hw e l Hin)).
    exact Hl.
Qed.

Lemma dispose_quiet (w : World A) : owned handles w -> quiet (dispose w).
Proof.
  intros Hw e. apply no_member_nil. intros l Hl.
  rewrite dispose_service in Hl.
  assert (Hin := Hl). apply unsubscribe_all_shrinks in Hin.
  apply (unsubscribe_all_removes _ _ (workspaceContextService w) (Hw e l Hin)).
  exact Hl.
Qed.

(** An event nobody listens to stays that way, whatever happens. *)
Lemma exec_keeps_unsubscribed (e : EventName) (steps : list Step) :
  forall w,
    listeners e (workspaceContextService w) = [] ->
    listeners e (workspaceContextService (exec update dispose w steps)) = [].
Proof.
  induction steps as [|s steps IH]; intros w Hw; [exact Hw|].
  apply IH. destruct s as [st fs|e'|]; cbn [step].
  - now destruct e.
  - now rewrite (fire_preserves update (@workspaceContextService A)
                   update_service).
  - apply no_member_nil. intros l Hl. rewrite dispose_service in Hl.
    apply unsubscribe_all_shrinks in Hl. now rewrite Hw in Hl.
Qed.

Lemma exec_quiet_flag (steps : list Step) :
  forall w, quiet w ->
            flag (this (exec update dispose w steps)) = flag (this w).
Proof.
  induction steps as [|s steps IH]; intros w Hw; [reflexivity|].
  change (exec update dispose w (s :: steps))
    with (exec update dispose (step update dispose w s) steps).
  destruct s as [st fs|e|]; cbn [step].
  - rewrite IH; [reflexivity|]. intros e. specialize (Hw e). now destruct e.
  - unfold fire. rewrite (Hw e). simpl. now apply IH.
  - rewrite IH; [apply dispose_flag|].
    intros e. apply no_member_nil. intros l Hl. rewrite dispose_service in Hl.
    apply unsubscribe_all_shrinks in Hl. now rewrite (Hw e) in Hl.
Qed.

(** Once disposed, an action that owned its listeners keeps the flag it
    had, whatever follows. *)
Lemma exec_disposed_flag (w : World A) (before later : list Step) :
  owned handles w ->
  flag (this (exec update dispose w (before ++ Dispose :: later)))
  = flag (this (exec update dispose w (before ++ [Dispose]))).
Proof.
  intros Hw. rewrite !exec_app.
  change (exec update dispose (exec update dispose w before) (Dispose :: later))
    with (exec update dispose (dispose (exec update dispose w before)) later).
  change (exec update dispose (exec update dispose w before) [Dispose])
    with (dispose (exec update dispose w before)).
  apply exec_quiet_flag, dispose_quiet, exec_keeps_owned, Hw.
Qed.

End Lifecycle.

Lemma workspace_constructor_owned (id label : string)
  (prefs : IPreferencesService) (ctx : IWorkspaceContextService) :
  workbenchStateListeners ctx = [] ->
  workspaceFoldersListeners ctx = [] ->
  owned OpenWorkspaceSettingsAction.disposables
        (OpenWorkspaceSettingsAction.constructor id label prefs ctx).
Proof.
  intros Hs Hf e l. simpl. destruct e; simpl; rewrite ?Hs, ?Hf; simpl.
  - intros [<-|[]]. now left.
  - intros [].
Qed.

Lemma folder_constructor_owned (id label : string)
  (prefs : IPreferencesService) (ctx : IWorkspaceContextService)
  (cmds : ICommandService) :
  workbenchStateListeners ctx = [] ->
  workspaceFoldersListeners ctx = [] ->
  owned OpenFolderSettingsAction.disposables
        (OpenFolderSettingsAction.constructor id label prefs ctx cmds).
Proof.
  intros Hs Hf e l. simpl. destruct e; simpl; rewrite ?Hs, ?Hf; simpl.
  - intros [<-|[]]. now left.
  - intros [<-|[]]. right. now left.
Qed.

(** X1.  The workspace settings action listens to workbench-state changes
    only:
    provided no listener for folder-list changes was registered with the
    service before the action was built, a folder-list-change notification
    leaves the action, the service and the log exactly as they were, at any
    point of the action's life. *)
Theorem workspace_settings_ignores_folder_changes (id label : string)
  (prefs : IPreferencesService) (ctx : IWorkspaceContextService)
  (steps : list Step) :
  workspaceFoldersListeners ctx = [] ->
  let w0 := OpenWorkspaceSettingsAction.constructor id label prefs ctx in
  OpenWorkspaceSettingsAction.after w0
    (steps ++ [Notify onDidChangeWorkspaceFolders])
  = OpenWorkspaceSettingsAction.after w0 steps.
Proof.
  intros Hf. cbv zeta. unfold OpenWorkspaceSettingsAction.after.
  rewrite exec_app. cbn [exec fold_left step].
  apply fire_unsubscribed.
  apply (exec_keeps_unsubscribed OpenWorkspaceSettingsAction.update
           OpenWorkspaceSettingsAction.dispose
           OpenWorkspaceSettingsAction.disposables).
  - reflexivity.
  - reflexivity.
  - exact Hf.
Qed.

Lemma workspace_settings_ignores_folder_changes_witness :
  let opened := [Change WORKSPACE [folder_at "/srv/a" 0]] in
  let w :=
    OpenWorkspaceSettingsAction.after (workspace_settings_action empty_window)
      (opened ++ [Notify onDidChangeWorkspaceFolders]) in
  workspaceFoldersListeners empty_window = []
  /\ getWorkbenchState (workspaceContextService w) = WORKSPACE
  /\ OpenWorkspaceSettingsAction.enabled w = false.
Proof.
  cbv zeta. split; [reflexivity|]. split; [reflexivity|].
  unfold workspace_settings_action.
  rewrite (workspace_settings_ignores_folder_changes
             OpenWorkspaceSettingsAction.ID OpenWorkspaceSettingsAction.LABEL
             quiet_preferences empty_window
             [Change WORKSPACE [folder_at "/srv/a" 0]] eq_refl).
  reflexivity.
Defined.

(** X2.  Every subscription taken by a constructor is released exactly
    once.
    The workspace settings action holds one handle, the folder settings
    action two distinct ones.  Whatever happens to the action, as long as
    it has not been disposed it still holds them and none has been
    released; and once [dispose] has been called, however often and
    whatever else happened, it holds none and the log of released handles
    lists exactly the constructor's handles, each once. *)
Theorem subscriptions_released_exactly_once (id label : string)
  (prefs : IPreferencesService) (ctx : IWorkspaceContextService)
  (cmds : ICommandService) (steps : list Step) :
  let n := nextListener ctx in
  let ws0 := OpenWorkspaceSettingsAction.constructor id label prefs ctx in
  let ws := OpenWorkspaceSettingsAction.after ws0 steps in
  let fs0 := OpenFolderSettingsAction.constructor id label prefs ctx cmds in
  let fs := OpenFolderSettingsAction.after fs0 steps in
  let one := [ {| event := onDidChangeWorkbenchState; listener := n |} ] in
  let two := [ {| event := onDidChangeWorkbenchState; listener := n |};
               {| event := onDidChangeWorkspaceFolders; listener := S n |} ] in
  NoDup two
  /\ (if existsb is_Dispose steps
      then OpenWorkspaceSettingsAction.disposables (this ws) = []
           /\ released ws = one
      else OpenWorkspaceSettingsAction.disposables (this ws) = one
           /\ released ws = [])
  /\ (if existsb is_Dispose steps
      then OpenFolderSettingsAction.disposables (this fs) = []
           /\ released fs = two
      else OpenFolderSettingsAction.disposables (this fs) = two
           /\ released fs = []).
Proof.
  cbv zeta. split; [|split].
  - repeat constructor; simpl; intuition discriminate.
  - assert (H := exec_releases OpenWorkspaceSettingsAction.update
                   OpenWorkspaceSettingsAction.dispose
                   OpenWorkspaceSettingsAction.disposables
                   (fun w => eq_refl) (fun w => eq_refl) (fun w => eq_refl)
                   (fun w => eq_refl) steps
                   (OpenWorkspaceSettingsAction.constructor id label prefs ctx)).
    cbv zeta in H. unfold OpenWorkspaceSettingsAction.after.
    destruct (existsb is_Dispose steps); destruct H as [H1 H2];
      rewrite H1, H2; destruct ctx; split; reflexivity.
  - assert (H := exec_releases OpenFolderSettingsAction.update
                   OpenFolderSettingsAction.dispose
                   OpenFolderSettingsAction.disposables
                   (fun w => eq_refl) (fun w => eq_refl) (fun w => eq_refl)
                   (fun w => eq_refl) steps
                   (OpenFolderSettingsAction.constructor id label prefs ctx cmds)).
    cbv zeta in H. unfold OpenFolderSettingsAction.after.
    destruct (existsb is_Dispose steps); destruct H as [H1 H2];
      rewrite H1, H2; destruct ctx; split; reflexivity.
Qed.

(** X3.  Disposal ends the tracking.  For an action built on a service that had
    no listener registered, once [dispose] has been called no later change
    of the workspace, notification or further disposal alters the enabled
    flag: it stays what it was when the action was disposed. *)
Theorem disposed_action_stops_tracking (id label : string)
  (prefs : IPreferencesService) (ctx : IWorkspaceContextService)
  (cmds : ICommandService) (before later : list Step) :
  workbenchStateListeners ctx = [] ->
  workspaceFoldersListeners ctx = [] ->
  let ws0 := OpenWorkspaceSettingsAction.constructor id label prefs ctx in
  let fs0 := OpenFolderSettingsAction.constructor id label prefs ctx cmds in
  OpenWorkspaceSettingsAction.enabled
    (OpenWorkspaceSettingsAction.after ws0 (before ++ Dispose :: later))
  = OpenWorkspaceSettingsAction.enabled
      (OpenWorkspaceSettingsAction.after ws0 (before ++ [Dispose]))
  /\ OpenFolderSettingsAction.enabled
       (OpenFolderSettingsAction.after fs0 (before ++ Dispose :: later))
     = OpenFolderSettingsAction.enabled
         (OpenFolderSettingsAction.after fs0 (before ++ [Dispose])).
Proof.
  intros Hs Hf. cbv zeta. split.
  - apply (exec_disposed_flag OpenWorkspaceSettingsAction.update
             OpenWorkspaceSettingsAction.dispose
             (handles := OpenWorkspaceSettingsAction.disposables)
             (fun a => _enabled (OpenWorkspaceSettingsAction.super a))
             (fun w => eq_refl) (fun w => eq_refl) (fun w => eq_refl)
             (fun w => eq_refl)).
    now apply workspace_constructor_owned.
  - apply (exec_disposed_flag OpenFolderSettingsAction.update
             OpenFolderSettingsAction.dispose
             (handles := OpenFolderSettingsAction.disposables)
             (fun a => _enabled (OpenFolderSettingsAction.super a))
             (fun w => eq_refl) (fun w => eq_refl) (fun w => eq_refl)
             (fun w => eq_refl)).
    now apply folder_constructor_owned.
Qed.

Lemma disposed_action_stops_tracking_witness :
  let later := [Change WORKSPACE [folder_at "/srv/a" 0];
                Notify onDidChangeWorkbenchState;
                Notify onDidChangeWorkspaceFolders] in
  let fs0 := folder_settings_action empty_window (picks_folder None) in
  workbenchStateListeners empty_window = []
  /\ workspaceFoldersListeners empty_window = []
  /\ OpenFolderSettingsAction.enabled
       (OpenFolderSettingsAction.after fs0 ([] ++ Dispose :: later)) = false
  /\ OpenFolderSettingsAction.enabled
       (OpenFolderSettingsAction.after fs0 later) = true.
Proof.
  cbv zeta. split; [reflexivity|]. split; [reflexivity|].
  split; [|reflexivity].
  unfold folder_settings_action.
  rewrite (proj2 (disposed_action_stops_tracking
                    OpenFolderSettingsAction.ID OpenFolderSettingsAction.LABEL
                    quiet_preferences empty_window (picks_folder None) [] _
                    eq_refl eq_refl)).
  reflexivity.
Defined.

(** Two actions built on the same service and living through the same
    steps see the same workbench state and workspace. *)
Lemma exec_same_topology {A B : Type}
  (update1 dispose1 : World A -> World A)
  (update2 dispose2 : World B -> World B)
  (handles1 : A -> list IDisposable) (handles2 : B -> list IDisposable) :
  (forall w, workspaceContextService (update1 w) = workspaceContextService w) ->
  (forall w, workspaceContextService (update2 w) = workspaceContextService w) ->
  (forall w, workspaceContextService (dispose1 w)
             = fold_left unsubscribe (handles1 (this w))
                         (workspaceContextService w)) ->
  (forall w, workspaceContextService (dispose2 w)
             = fold_left unsubscribe (handles2 (this w))
                         (workspaceContextService w)) ->
  forall steps w1 w2,
    getWorkbenchState (workspaceContextService w1)
    = getWorkbenchState (workspaceContextService w2) ->
    getWorkspace (workspaceContextService w1)
    = getWorkspace (workspaceContextService w2) ->
    getWorkbenchState (workspaceContextService (exec update1 dispose1 w1 steps))
    = getWorkbenchState (workspaceContextService (exec update2 dispose2 w2 steps))
    /\ getWorkspace (workspaceContextService (exec update1 dispose1 w1 steps))
       = getWorkspace (workspaceContextService (exec update2 dispose2 w2 steps)).
Proof.
  intros Hu1 Hu2 Hd1 Hd2.
  induction steps as [|s steps IH]; intros w1 w2 Hst Hws; [now split|].
  apply IH; destruct s as [st fs|e|]; cbn [step]; try reflexivity.
  - now rewrite !(fire_preserves _ (@workspaceContextService _)) by assumption.
  - rewrite Hd1, Hd2.
    destruct (unsubscribe_all_keeps_getters (handles1 (this w1))
                (workspaceContextService w1)) as [-> _].
    now destruct (unsubscribe_all_keeps_getters (handles2 (this w2))
                    (workspaceContextService w2)) as [-> _].
  - now rewrite !(fire_preserves _ (@workspaceContextService _)) by assumption.
  - rewrite Hd1, Hd2.
    destruct (unsubscribe_all_keeps_getters (handles1 (this w1))
                (workspaceContextService w1)) as [_ ->].
    now destruct (unsubscribe_all_keeps_getters (handles2 (this w2))
                    (workspaceContextService w2)) as [_ ->].
Qed.

(** X4.  Folder settings are never offered without workspace settings, once
    both actions have heard of a change of the workbench state: for the two
    actions built on the same service and not disposed, after any common
    history ending in a workbench-state-change notification, an enabled
    folder settings action comes with an enabled workspace settings action.
    A folder-list-change notification alone does not give this, since only
    the folder settings action hears it. *)
Theorem folder_settings_enabled_implies_workspace_settings_enabled :
  (forall (id1 label1 id2 label2 : string) (prefs1 prefs2 : IPreferencesService)
          (ctx : IWorkspaceContextService) (cmds : ICommandService)
          (steps : list Step),
     live steps ->
     let history := steps ++ [Notify onDidChangeWorkbenchState] in
     OpenFolderSettingsAction.enabled
       (OpenFolderSettingsAction.after
          (OpenFolderSettingsAction.constructor id2 label2 prefs2 ctx cmds)
          history) = true ->
     OpenWorkspaceSettingsAction.enabled
       (OpenWorkspaceSettingsAction.after
          (OpenWorkspaceSettingsAction.constructor id1 label1 prefs1 ctx)
          history) = true)
  /\ (let history := [Change WORKSPACE [folder_at "/srv/a" 0];
                     Notify onDidChangeWorkspaceFolders] in
      OpenFolderSettingsAction.enabled
        (OpenFolderSettingsAction.after
           (folder_settings_action empty_window (picks_folder None)) history)
      = true
      /\ OpenWorkspaceSettingsAction.enabled
           (OpenWorkspaceSettingsAction.after
              (workspace_settings_action empty_window) history)
         = false).
Proof.
  split; [|split; reflexivity].
  intros id1 label1 id2 label2 prefs1 prefs2 ctx cmds steps Hlive.
  cbv zeta. unfold OpenFolderSettingsAction.after,
    OpenWorkspaceSettingsAction.after.
  rewrite (exec_then_notify OpenFolderSettingsAction.update
             OpenFolderSettingsAction.dispose folder_update_idempotent
             folder_update_keeps_service _ _ _ Hlive
             (folder_constructor_listens id2 label2 prefs2 ctx cmds _)).
  rewrite (exec_then_notify OpenWorkspaceSettingsAction.update
             OpenWorkspaceSettingsAction.dispose workspace_update_idempotent
             workspace_update_keeps_service _ _ _ Hlive
             (workspace_constructor_listens id1 label1 prefs1 ctx)).
  rewrite folder_update_enabled, workspace_update_enabled.
  destruct (exec_same_topology
              OpenWorkspaceSettingsAction.update
              OpenWorkspaceSettingsAction.dispose
              OpenFolderSettingsAction.update
              OpenFolderSettingsAction.dispose
              OpenWorkspaceSettingsAction.disposables
              OpenFolderSettingsAction.disposables
              (fun w => eq_refl) (fun w => eq_refl)
              (fun w => eq_refl) (fun w => eq_refl) steps
              (OpenWorkspaceSettingsAction.constructor id1 label1 prefs1 ctx)
              (OpenFolderSettingsAction.constructor id2 label2 prefs2 ctx cmds))
    as [-> _].
  - now destruct ctx.
  - now destruct ctx.
  - intros [-> _]. discriminate.
Qed.

Lemma folder_settings_enabled_implies_workspace_settings_enabled_witness :
  let steps := [Change WORKSPACE [folder_at "/srv/a" 0];
                Notify onDidChangeWorkspaceFolders] in
  let history := steps ++ [Notify onDidChangeWorkbenchState] in
  live steps
  /\ OpenFolderSettingsAction.enabled
       (OpenFolderSettingsAction.after
          (folder_settings_action empty_window (picks_folder None)) history)
     = true
  /\ OpenWorkspaceSettingsAction.enabled
       (OpenWorkspaceSettingsAction.after
          (workspace_settings_action empty_window) history) = true.
Proof.
  cbv zeta. split; [reflexivity|]. split; [reflexivity|].
  apply (proj1 folder_settings_enabled_implies_workspace_settings_enabled
               OpenWorkspaceSettingsAction.ID OpenWorkspaceSettingsAction.LABEL
               OpenFolderSettingsAction.ID OpenFolderSettingsAction.LABEL
               quiet_preferences quiet_preferences empty_window
               (picks_folder None)
               [Change WORKSPACE [folder_at "/srv/a" 0];
                Notify onDidChangeWorkspaceFolders]
               eq_refl).
  reflexivity.
Defined.

(** X5.  For the folder settings action the two events are interchangeable and
    repeats are absorbed: as long as the action has not been disposed, a
    notification of either event leaves the same action, service and log
    as a notification of the other, and a second notification right after
    a first changes nothing. *)
Theorem folder_settings_notifications_coalesce (id label : string)
  (prefs : IPreferencesService) (ctx : IWorkspaceContextService)
  (cmds : ICommandService) (steps : list Step) (e1 e2 : EventName) :
  live steps ->
  let w0 := OpenFolderSettingsAction.constructor id label prefs ctx cmds in
  OpenFolderSettingsAction.after w0 (steps ++ [Notify e1])
  = OpenFolderSettingsAction.after w0 (steps ++ [Notify e2])
  /\ OpenFolderSettingsAction.after w0 (steps ++ [Notify e1; Notify e2])
     = OpenFolderSettingsAction.after w0 (steps ++ [Notify e1]).
Proof.
  intros Hlive. cbv zeta. unfold OpenFolderSettingsAction.after.
  assert (Hnotify : forall steps' e, live steps' ->
            exec OpenFolderSettingsAction.update
                 OpenFolderSettingsAction.dispose
                 (OpenFolderSettingsAction.constructor id label prefs ctx cmds)
                 (steps' ++ [Notify e])
            = OpenFolderSettingsAction.update
                (exec OpenFolderSettingsAction.update
                      OpenFolderSettingsAction.dispose
                      (OpenFolderSettingsAction.constructor id label prefs ctx
                                                            cmds)
                      steps')).
  { intros steps' e H.
    apply (exec_then_notify OpenFolderSettingsAction.update
             OpenFolderSettingsAction.dispose folder_update_idempotent
             folder_update_keeps_service _ _ _ H
             (folder_constructor_listens id label prefs ctx cmds e)). }
  split.
  - now rewrite !Hnotify.
  - change [Notify e1; Notify e2] with ([Notify e1] ++ [Notify e2]).
    rewrite app_assoc, Hnotify, Hnotify; [reflexivity|exact Hlive|].
    unfold live. rewrite forallb_app, Hlive. reflexivity.
Qed.

Lemma folder_settings_notifications_coalesce_witness :
  let steps := [Change WORKSPACE [folder_at "/srv/a" 0]] in
  let w0 := folder_settings_action empty_window (picks_folder None) in
  live steps
  /\ OpenFolderSettingsAction.after w0
       (steps ++ [Notify onDidChangeWorkbenchState])
     = OpenFolderSettingsAction.after w0
         (steps ++ [Notify onDidChangeWorkspaceFolders]).
Proof.
  cbv zeta. split; [reflexivity|].
  apply (@folder_settings_notifications_coalesce
           OpenFolderSettingsAction.ID OpenFolderSettingsAction.LABEL
           quiet_preferences empty_window (picks_folder None)
           [Change WORKSPACE [folder_at "/srv/a" 0]]
           onDidChangeWorkbenchState onDidChangeWorkspaceFolders eq_refl).
Defined.

(* ===================================================================== *)
(** ** More on the entries of the language configurator *)
(* ===================================================================== *)

Section LanguageEntries.

Import ConfigureLanguageBasedSettingsAction.

(** X6.  The list shown does not depend on the order in which the registry
    lists its language names: two registries that answer every look-up
    alike and list the same names, each as often, in different orders give
    the same entries in the same order. *)
Theorem picks_independent_of_listing_order {P : StringPrototype}
  (id label : string)
  (names1 names2 : list JSString)
  (modeIdFor : JSString -> option string)
  (extensions filenames : JSString -> option (list string))
  (modes : JSString -> Outcome IMode)
  (quick : IQuickOpenService) (prefs : IPreferencesService) :
  Permutation names1 names2 ->
  let registry names :=
    {| getRegisteredLanguageNames := names;
       getModeIdForLanguageName := modeIdFor;
       getExtensions := extensions;
       getFilenames := filenames;
       getOrCreateModeByLanguageName_answer := modes |} in
  picks (constructor id label (registry names1) quick prefs)
  = picks (constructor id label (registry names2) quick prefs).
Proof.
  intros HP. cbv zeta. unfold picks. simpl.
  rewrite (sort_unique (l := names1) (l' := sort names2)).
  - reflexivity.
  - eapply Permutation_trans; [exact HP | apply sort_Permutation].
  - apply sort_StronglySorted.
Qed.

Lemma picks_independent_of_listing_order_witness :
  let registry names :=
    {| getRegisteredLanguageNames := names;
       getModeIdForLanguageName := getModeIdForLanguageName sample_registry;
       getExtensions := getExtensions sample_registry;
       getFilenames := getFilenames sample_registry;
       getOrCreateModeByLanguageName_answer :=
         getOrCreateModeByLanguageName_answer sample_registry |} in
  Permutation [js "Go"; js "TypeScript"; js "C"]
              [js "C"; js "TypeScript"; js "Go"]
  /\ picks (P := ascii_host)
       (constructor ID LABEL (registry [js "Go"; js "TypeScript"; js "C"])
                    dismisses quiet_preferences)
     = picks (P := ascii_host)
         (constructor ID LABEL (registry [js "C"; js "TypeScript"; js "Go"])
                      dismisses quiet_preferences).
Proof.
  cbv zeta.
  assert (Permutation [js "Go"; js "TypeScript"; js "C"]
                      [js "C"; js "TypeScript"; js "Go"]) as HP.
  { apply perm_trans with [js "TypeScript"; js "Go"; js "C"];
      [apply perm_swap|].
    apply perm_trans with [js "TypeScript"; js "C"; js "Go"];
      [apply perm_skip, perm_swap | apply perm_swap]. }
  split; [exact HP|].
  exact (@picks_independent_of_listing_order ascii_host ID LABEL _ _
           (getModeIdForLanguageName sample_registry)
           (getExtensions sample_registry) (getFilenames sample_registry)
           (getOrCreateModeByLanguageName_answer sample_registry)
           dismisses quiet_preferences HP).
Defined.

Lemma first_character_decides (x y : code_unit) (a b : JSString) :
  (x < y)%N ->
  string_le (x :: a) (y :: b) /\ x :: a <> y :: b.
Proof.
  intros Hxy.
  assert ((x ?= y)%N = Lt) as Hlt by now apply N.compare_lt_iff.
  split.
  - unfold string_le, JSString_leb. simpl. now rewrite Hlt.
  - intros [= -> _]. now apply N.lt_irrefl in Hxy.
Qed.

Lemma sorted_prefix_below (l1 l2 : list JSString) (a : JSString) :
  StronglySorted string_le (l1 ++ a :: l2) ->
  forall b, In b l1 -> string_le b a.
Proof.
  induction l1 as [|x l1 IH]; intros S b Hb; [contradiction|].
  simpl in S. inversion S as [|? ? S' F]; subst.
  destruct Hb as [->|Hb].
  - rewrite Forall_forall in F. apply F, in_elt.
  - now apply IH.
Qed.

Lemma sorted_precedes (l : list JSString) (a b : JSString) :
  StronglySorted string_le l -> In a l -> In b l ->
  string_le a b -> a <> b -> precedes a b l.
Proof.
  intros S Ha Hb Hab Hne.
  apply in_split in Ha as (l1 & l2 & ->).
  apply in_app_or in Hb as [Hb|[Hb|Hb]].
  - elim Hne. apply string_le_antisym; [exact Hab|].
    eapply sorted_prefix_below; eauto.
  - now elim Hne.
  - apply in_split in Hb as (l2' & l3 & ->). now exists l1, l2', l3.
Qed.

(** X7.  The order shown is case-sensitive, not alphabetical: a registered name
    that begins with an upper-case letter A-Z (code units 65 to 90) is
    shown before every registered name that begins with a lower-case
    letter a-z (code units 97 to 122), whatever follows the first
    letters. *)
Theorem uppercase_names_shown_first {P : StringPrototype} (self : t)
  (x y : code_unit) (a b : JSString) :
  (65 <= x <= 90)%N ->
  (97 <= y <= 122)%N ->
  In (x :: a) (getRegisteredLanguageNames (modeService self)) ->
  In (y :: b) (getRegisteredLanguageNames (modeService self)) ->
  precedes (x :: a) (y :: b) (map label (picks self)).
Proof.
  intros Hx Hy Ha Hb. rewrite picks_labels.
  destruct (first_character_decides a b (x := x) (y := y)) as [Hle Hne];
    [lia|].
  apply sorted_precedes; auto using sort_StronglySorted.
  - eapply Permutation_in; [apply sort_Permutation | exact Ha].
  - eapply Permutation_in; [apply sort_Permutation | exact Hb].
Qed.

Lemma uppercase_names_shown_first_witness :
  let self :=
    constructor ID LABEL
      {| getRegisteredLanguageNames :=
           [js "awk"; js "Zsh"; js "bash"; js "YAML"];
         getModeIdForLanguageName := fun _ => None;
         getExtensions := fun _ => None;
         getFilenames := fun _ => None;
         getOrCreateModeByLanguageName_answer := fun _ => Rejected null |}
      dismisses quiet_preferences in
  let shown := map label (picks (P := ascii_host) self) in
  shown = [js "YAML"; js "Zsh"; js "awk"; js "bash"]
  /\ precedes (js "Zsh") (js "awk") shown.
Proof.
  cbv zeta. split; [reflexivity|].
  apply (@uppercase_names_shown_first ascii_host _ 90%N 97%N
           (js "sh") (js "wk"));
    [ lia | lia | simpl; auto 10 | simpl; auto 10 ].
Defined.

(** X8.  Selecting the entry of a registered language asks the mode service for
    that language under its display name exactly as registered: every
    registered name has its entry among those shown, and when the picker
    returns that entry the call that follows the picker is
    [getOrCreateModeByLanguageName] with the registered name itself, not
    the lower-cased name the description was looked up with. *)
Theorem selected_entry_resolved_by_display_name {P : StringPrototype}
  (self : t) (lang : JSString) (t0 : Trace) :
  In lang (getRegisteredLanguageNames (modeService self)) ->
  pick_answer (quickOpenService self) (picks self) localize_pickLanguage
  = Resolved (Some (entry self lang)) ->
  In (entry self lang) (picks self)
  /\ exists rest,
       snd (run self t0)
       = (t0 ++ CallPick (picks self) localize_pickLanguage
             :: CallGetOrCreateModeByLanguageName lang :: rest)%list.
Proof.
  intros Hin Hpick. split.
  - unfold picks. apply in_map.
    eapply Permutation_in; [apply sort_Permutation | exact Hin].
  - rewrite run_unfold. cbv zeta. rewrite Hpick. cbv zeta. simpl label.
    destruct (getOrCreateModeByLanguageName_answer (modeService self) lang);
      eexists; simpl; reflexivity.
Qed.

Lemma selected_entry_resolved_by_display_name_witness :
  let self := configure_languages sample_registry picks_first in
  let shown := picks (P := ascii_host) self in
  In (js "C") (getRegisteredLanguageNames (modeService self))
  /\ pick_answer (quickOpenService self) shown localize_pickLanguage
     = Resolved (Some (entry (P := ascii_host) self (js "C")))
  /\ exists rest,
       snd (run (P := ascii_host) self [])
       = CallPick shown localize_pickLanguage
           :: CallGetOrCreateModeByLanguageName (js "C") :: rest.
Proof.
  cbv zeta.
  assert (In (js "C")
            (getRegisteredLanguageNames
               (modeService (configure_languages sample_registry picks_first))))
    as Hin by (simpl; auto).
  split; [exact Hin|]. split; [reflexivity|].
  exact (proj2 (@selected_entry_resolved_by_display_name ascii_host
                  (configure_languages sample_registry picks_first)
                  (js "C") [] Hin eq_refl)).
Defined.

End LanguageEntries.
